(** * UU EEE Assistant: the voice session pipeline, the persistence service
      and the debounced save effect, embedded from [src/App.tsx] and
      [src/services/persistence.ts]. *)

From Stdlib Require Import ZArith QArith Lia.
From stdpp Require Import base strings list gmap pretty.

Local Open Scope string_scope.
Local Open Scope list_scope.

(** ** JavaScript completions

    A call either completes normally or throws.  Handlers run one at a time
    on the event loop, so a handler is a function of the world before it. *)

Inductive Completion (A : Type) : Type :=
| Normal (a : A)
| Throw (e : string).
Arguments Normal {A} a.
Arguments Throw {A} e.

Module Voice.

(** *** Types of [src/types.ts] and the state of [App] *)

Inductive Status := idle | listening | speaking.
Inductive Role := user | model.

Record TranscriptionEntry := {
  id : string;
  role : Role;
  text : string;
  timestamp : Z
}.

(** Identities of the browser and SDK objects the component holds. *)
Definition AudioContext := nat.
Definition SourceNode := nat.      (* an AudioBufferSourceNode *)
Definition SetRef := nat.          (* a Set<AudioBufferSourceNode> object *)
Definition Session := nat.         (* the resolved live session *)

(** [audioContextsRef.current] *)
Record AudioContexts := { input : AudioContext; output : AudioContext }.

(** [audioNodesRef.current]; the gain and analyser nodes are handles no
    handler below inspects, [sources] is a reference to a shared [Set]. *)
Record AudioNodes := {
  inputNode : nat;
  outputNode : nat;
  analyzer : nat;
  sources : SetRef
}.

(** A [MediaStream] handed out by [getUserMedia]; its tracks are live until
    somebody calls [stop()] on them. *)
Record MediaStream := { stream_id : nat; tracks_live : bool }.

(** An [AudioBuffer]: [duration] is [length / sampleRate]. *)
Record AudioBuffer := { buf_length : N; buf_sampleRate : positive }.
Definition duration (b : AudioBuffer) : Q := Z.of_N (buf_length b) # buf_sampleRate b.

(** Calls made on browser and SDK objects, in the order they happen. *)
Inductive Call :=
| session_close (s : Session)
| source_stop (n : SourceNode)
| source_start (n : SourceNode) (when : Q)
| getUserMedia
| live_connect
| capture_wired (stream : nat).

(** React state of the voice assistant ([useState]). *)
Record ReactState := {
  isConnected : bool;
  isConnecting : bool;
  status : Status;
  transcriptions : list TranscriptionEntry;
  currentInput : string;
  currentOutput : string
}.

(** The four [useRef] cells. *)
Record Refs := {
  audioContextsRef : option AudioContexts;
  audioNodesRef : option AudioNodes;
  sessionRef : option Session;
  nextStartTimeRef : Q
}.

(** Objects living in the browser: the [Set] objects allocated by
    [new Set()] (a [Set] iterates in insertion order), the media streams
    acquired, a counter for fresh object identities and the call log. *)
Record Browser := {
  sets : list (list SourceNode);
  streams : list MediaStream;
  fresh : nat;
  calls : list Call
}.

Record World := { react : ReactState; refs : Refs; browser : Browser }.

(** The state of a freshly mounted component. *)
Definition initial : World :=
  {| react := {| isConnected := false; isConnecting := false; status := idle;
                 transcriptions := []; currentInput := ""; currentOutput := "" |};
     refs := {| audioContextsRef := None; audioNodesRef := None;
                sessionRef := None; nextStartTimeRef := 0 |};
     browser := {| sets := []; streams := []; fresh := 0; calls := [] |} |}.

(** *** Field updates *)

Definition with_react (f : ReactState -> ReactState) (w : World) : World :=
  {| react := f (react w); refs := refs w; browser := browser w |}.
Definition with_refs (f : Refs -> Refs) (w : World) : World :=
  {| react := react w; refs := f (refs w); browser := browser w |}.
Definition with_browser (f : Browser -> Browser) (w : World) : World :=
  {| react := react w; refs := refs w; browser := f (browser w) |}.

Definition upd_isConnected (v : bool) (r : ReactState) : ReactState :=
  {| isConnected := v; isConnecting := isConnecting r; status := status r;
     transcriptions := transcriptions r; currentInput := currentInput r;
     currentOutput := currentOutput r |}.
Definition upd_isConnecting (v : bool) (r : ReactState) : ReactState :=
  {| isConnected := isConnected r; isConnecting := v; status := status r;
     transcriptions := transcriptions r; currentInput := currentInput r;
     currentOutput := currentOutput r |}.
Definition upd_status (v : Status) (r : ReactState) : ReactState :=
  {| isConnected := isConnected r; isConnecting := isConnecting r; status := v;
     transcriptions := transcriptions r; currentInput := currentInput r;
     currentOutput := currentOutput r |}.
Definition upd_transcriptions (f : list TranscriptionEntry -> list TranscriptionEntry)
    (r : ReactState) : ReactState :=
  {| isConnected := isConnected r; isConnecting := isConnecting r; status := status r;
     transcriptions := f (transcriptions r); currentInput := currentInput r;
     currentOutput := currentOutput r |}.
Definition upd_currentInput (f : string -> string) (r : ReactState) : ReactState :=
  {| isConnected := isConnected r; isConnecting := isConnecting r; status := status r;
     transcriptions := transcriptions r; currentInput := f (currentInput r);
     currentOutput := currentOutput r |}.
Definition upd_currentOutput (f : string -> string) (r : ReactState) : ReactState :=
  {| isConnected := isConnected r; isConnecting := isConnecting r; status := status r;
     transcriptions := transcriptions r; currentInput := currentInput r;
     currentOutput := f (currentOutput r) |}.

Definition upd_audioContextsRef (v : option AudioContexts) (r : Refs) : Refs :=
  {| audioContextsRef := v; audioNodesRef := audioNodesRef r;
     sessionRef := sessionRef r; nextStartTimeRef := nextStartTimeRef r |}.
Definition upd_audioNodesRef (v : option AudioNodes) (r : Refs) : Refs :=
  {| audioContextsRef := audioContextsRef r; audioNodesRef := v;
     sessionRef := sessionRef r; nextStartTimeRef := nextStartTimeRef r |}.
Definition upd_sessionRef (v : option Session) (r : Refs) : Refs :=
  {| audioContextsRef := audioContextsRef r; audioNodesRef := audioNodesRef r;
     sessionRef := v; nextStartTimeRef := nextStartTimeRef r |}.
Definition upd_nextStartTimeRef (v : Q) (r : Refs) : Refs :=
  {| audioContextsRef := audioContextsRef r; audioNodesRef := audioNodesRef r;
     sessionRef := sessionRef r; nextStartTimeRef := v |}.

Definition upd_sets (f : list (list SourceNode) -> list (list SourceNode))
    (b : Browser) : Browser :=
  {| sets := f (sets b); streams := streams b; fresh := fresh b; calls := calls b |}.
Definition upd_streams (f : list MediaStream -> list MediaStream) (b : Browser) : Browser :=
  {| sets := sets b; streams := f (streams b); fresh := fresh b; calls := calls b |}.
Definition upd_fresh (f : nat -> nat) (b : Browser) : Browser :=
  {| sets := sets b; streams := streams b; fresh := f (fresh b); calls := calls b |}.
Definition upd_calls (f : list Call -> list Call) (b : Browser) : Browser :=
  {| sets := sets b; streams := streams b; fresh := fresh b; calls := f (calls b) |}.

(** *** The handler monad: state passing over [World] with exceptions *)

Definition Js (A : Type) : Type := World -> Completion A * World.

Definition ret {A} (a : A) : Js A := fun w => (Normal a, w).
Definition bind {A B} (m : Js A) (k : A -> Js B) : Js B :=
  fun w => match m w with
           | (Normal a, w') => k a w'
           | (Throw e, w') => (Throw e, w')
           end.
Definition throw {A} (e : string) : Js A := fun w => (Throw e, w).

(** [try { body } catch (e) { handler }] *)
Definition try_catch {A} (body : Js A) (handler : string -> Js A) : Js A :=
  fun w => match body w with
           | (Normal a, w') => (Normal a, w')
           | (Throw e, w') => handler e w'
           end.

Definition gets {A} (f : World -> A) : Js A := fun w => (Normal (f w), w).
Definition modify (f : World -> World) : Js unit := fun w => (Normal tt, f w).

Notation "x <- m ;; k" := (bind m (fun x => k))
  (at level 100, m at level 99, k at level 200, right associativity).
Notation "m ;;; k" := (bind m (fun _ => k))
  (at level 100, k at level 200, right associativity).

(** The world a handler leaves behind. *)
Definition run {A} (m : Js A) (w : World) : World := snd (m w).
Definition completes {A} (m : Js A) (w : World) : Prop :=
  exists a, fst (m w) = Normal a.

(** [array.forEach(f)] / [set.forEach(f)]: a throw in [f] ends the loop. *)
Fixpoint forEach {A} (f : A -> Js unit) (l : list A) : Js unit :=
  match l with
  | [] => ret tt
  | x :: l' => f x ;;; forEach f l'
  end.

(** State setters of [useState] and the primitive calls. *)
Definition setIsConnected (v : bool) : Js unit := modify (with_react (upd_isConnected v)).
Definition setIsConnecting (v : bool) : Js unit := modify (with_react (upd_isConnecting v)).
Definition setStatus (v : Status) : Js unit := modify (with_react (upd_status v)).
Definition setTranscriptions (f : list TranscriptionEntry -> list TranscriptionEntry) : Js unit :=
  modify (with_react (upd_transcriptions f)).
Definition setCurrentInput (f : string -> string) : Js unit :=
  modify (with_react (upd_currentInput f)).
Definition setCurrentOutput (f : string -> string) : Js unit :=
  modify (with_react (upd_currentOutput f)).

Definition call (c : Call) : Js unit :=
  modify (with_browser (upd_calls (fun l => l ++ [c]))).

(** [Set] operations on the shared store. *)
Definition set_contents (r : SetRef) (w : World) : list SourceNode :=
  default [] (sets (browser w) !! r).
Definition set_clear (r : SetRef) : Js unit :=
  modify (with_browser (upd_sets (fun h => <[r := []]> h))).
Definition set_add (r : SetRef) (n : SourceNode) : Js unit :=
  modify (with_browser (upd_sets (fun h =>
    match h !! r with
    | Some l => if bool_decide (n ∈ l) then h else <[r := l ++ [n]]> h
    | None => h
    end))).
Definition set_delete (r : SetRef) (n : SourceNode) : Js unit :=
  modify (with_browser (upd_sets (fun h =>
    match h !! r with
    | Some l => <[r := List.filter (fun m => negb (Nat.eqb m n)) l]> h
    | None => h
    end))).
Definition new_Set : Js SetRef :=
  fun w => (Normal (length (sets (browser w))),
            with_browser (upd_sets (fun h => h ++ [[]])) w).
Definition new_object : Js nat :=
  fun w => (Normal (fresh (browser w)), with_browser (upd_fresh S) w).

(** *** Inbound messages

    A [LiveServerMessage] as the handler reads it: each field is what the
    optional chain [msg.serverContent?.…] evaluates to, [None] / [false]
    standing for [undefined]. *)

Record Transcription := { tr_text : option string }.

Record LiveServerMessage := {
  outputTranscription : option Transcription;
  inputTranscription : option Transcription;
  turnComplete : bool;
  inlineData : option string;    (* modelTurn?.parts?.[0]?.inlineData?.data *)
  interrupted : bool
}.

(** [prev + x] where [x] may be [undefined]. *)
Definition js_text (t : Transcription) : string := default "undefined" (tr_text t).

(** A string is truthy when it is defined and not empty. *)
Definition truthy (o : option string) : option string :=
  match o with
  | Some s => if String.eqb s "" then None else Some s
  | None => None
  end.

(** [Math.max] on two finite numbers. *)
Definition Math_max (a b : Q) : Q := if Qle_bool a b then b else a.

(** The values of the render in which [startVoiceSession] was called; the
    callbacks passed to [ai.live.connect] close over them. *)
Record Closure := { cl_currentInput : string; cl_currentOutput : string }.

(** What the browser supplies while one message is handled: the readings of
    [Date.now()], in call order, and [outputCtx.currentTime]. *)
Record MsgEnv := { now : nat -> Z; currentTime : Q }.

Section Handlers.

(** Whether [stop()] on a source node raises in the current world. *)
Variable stop_raises : World -> SourceNode -> bool.

(** [decodeBase64] and [decodeAudioData] of [services/audioUtils]; either
    may throw on a malformed chunk. *)
Variable decodeBase64 : string -> Completion (list Byte.byte).
Variable decodeAudioData :
  list Byte.byte -> AudioContext -> positive -> positive -> Completion AudioBuffer.

Definition lift {A} (c : Completion A) : Js A := fun w => (c, w).

Definition node_stop (n : SourceNode) : Js unit :=
  fun w => let w' := run (call (source_stop n)) w in
           if stop_raises w n then (Throw "InvalidStateError", w') else (Normal tt, w').

(** [stopAllAudio], App.tsx lines 78-84. *)
Definition stopAllAudio : Js unit :=
  nodes <- gets (fun w => audioNodesRef (refs w));;
  match nodes with
  | Some n =>
      playing <- gets (set_contents (sources n));;
      forEach (fun s => try_catch (node_stop s) (fun _ => ret tt)) playing;;;
      set_clear (sources n)
  | None => ret tt
  end;;;
  modify (with_refs (upd_nextStartTimeRef 0)).

(** [stopVoiceSession], App.tsx lines 86-92. *)
Definition stopVoiceSession : Js unit :=
  session <- gets (fun w => sessionRef (refs w));;
  match session with
  | Some s => call (session_close s);;; modify (with_refs (upd_sessionRef None))
  | None => ret tt
  end;;;
  stopAllAudio;;;
  setIsConnected false;;;
  setIsConnecting false;;;
  setStatus idle.

(** [startVoiceSession], App.tsx lines 94-104: the part that runs before the
    first [await], the audio graph being built without error.  It returns
    the closure of the callbacks it is about to register, or [None] when it
    returned early. *)
Definition startVoiceSession : Js (option Closure) :=
  connecting <- gets (fun w => isConnecting (react w));;
  connected <- gets (fun w => isConnected (react w));;
  if connecting || connected then ret None else
  ci <- gets (fun w => currentInput (react w));;
  co <- gets (fun w => currentOutput (react w));;
  setIsConnecting true;;;
  inputCtx <- new_object;;
  outputCtx <- new_object;;
  an <- new_object;;
  modify (with_refs (upd_audioContextsRef (Some {| input := inputCtx; output := outputCtx |})));;;
  inNode <- new_object;;
  outNode <- new_object;;
  srcs <- new_Set;;
  modify (with_refs (upd_audioNodesRef
    (Some {| inputNode := inNode; outputNode := outNode; analyzer := an; sources := srcs |})));;;
  call getUserMedia;;;
  ret (Some {| cl_currentInput := ci; cl_currentOutput := co |}).

(** Line 104 resumed: [getUserMedia] resolved with a stream, or rejected and
    the [catch] of line 153 ran.  On success [ai.live.connect] is called. *)
Definition startVoiceSession_stream (granted : bool) : Js (option nat) :=
  if granted then
    sid <- new_object;;
    modify (with_browser (upd_streams (fun l =>
      l ++ [{| stream_id := sid; tracks_live := true |}])));;;
    call live_connect;;;
    ret (Some sid)
  else
    setIsConnecting false;;; ret None.

(** Line 152 resumed: [sessionPromise] resolved, or rejected into the [catch]. *)
Definition startVoiceSession_session (r : option Session) : Js unit :=
  match r with
  | Some s => modify (with_refs (upd_sessionRef (Some s)))
  | None => setIsConnecting false
  end.

(** [onopen], lines 108-117. *)
Definition onopen (stream : nat) : Js unit :=
  setIsConnected true;;;
  setIsConnecting false;;;
  setStatus listening;;;
  call (capture_wired stream).

(** The ['ended'] listener of line 135; it holds the [Set] and the node it
    was created with. *)
Definition onended (srcs : SetRef) (source : SourceNode) : Js unit :=
  set_delete srcs source;;;
  remaining <- gets (set_contents srcs);;
  if Nat.eqb (length remaining) 0 then setStatus idle else ret tt.

(** [onmessage], lines 118-141, for a delivery that runs to its end before
    the next inbound event is handled (the two halves around
    [await decodeAudioData] are given separately below). *)
Definition onmessage (cl : Closure) (env : MsgEnv) (msg : LiveServerMessage) : Js unit :=
  match outputTranscription msg, inputTranscription msg with
  | Some t, _ => setCurrentOutput (fun prev => prev +:+ js_text t);;; setStatus speaking
  | None, Some t => setCurrentInput (fun prev => prev +:+ js_text t);;; setStatus listening
  | None, None => ret tt
  end;;;
  (if turnComplete msg then
     setTranscriptions (fun prev => prev ++
       [ {| id := pretty (now env 0) +:+ "-in"; role := user;
            text := cl_currentInput cl; timestamp := now env 1 |};
         {| id := pretty (now env 2) +:+ "-out"; role := model;
            text := cl_currentOutput cl; timestamp := now env 3 |} ]);;;
     setCurrentInput (fun _ => "");;;
     setCurrentOutput (fun _ => "")
   else ret tt);;;
  ctxs <- gets (fun w => audioContextsRef (refs w));;
  nodes <- gets (fun w => audioNodesRef (refs w));;
  match truthy (inlineData msg), ctxs, nodes with
  | Some base64Audio, Some c, Some n =>
      cursor <- gets (fun w => nextStartTimeRef (refs w));;
      modify (with_refs (upd_nextStartTimeRef (Math_max cursor (currentTime env))));;;
      bytes <- lift (decodeBase64 base64Audio);;
      audioBuffer <- lift (decodeAudioData bytes (output c) 24000%positive 1%positive);;
      source <- new_object;;
      start <- gets (fun w => nextStartTimeRef (refs w));;
      call (source_start source start);;;
      modify (with_refs (upd_nextStartTimeRef (start + duration audioBuffer)));;;
      set_add (sources n) source
  | _, _, _ => ret tt
  end;;;
  if interrupted msg then stopAllAudio else ret tt.

(** The two halves of [onmessage] around the [await] of line 130, for
    deliveries that overlap: [onmessage_arrival] is what runs when the
    message is delivered, leaving the decoding of its audio in flight, and
    [onmessage_resumed] is the continuation once decoding has settled. *)
Record Decoding := { dec_result : Completion AudioBuffer; dec_nodes : AudioNodes }.

Definition onmessage_arrival (cl : Closure) (env : MsgEnv) (msg : LiveServerMessage)
    : Js (option Decoding) :=
  match outputTranscription msg, inputTranscription msg with
  | Some t, _ => setCurrentOutput (fun prev => prev +:+ js_text t);;; setStatus speaking
  | None, Some t => setCurrentInput (fun prev => prev +:+ js_text t);;; setStatus listening
  | None, None => ret tt
  end;;;
  (if turnComplete msg then
     setTranscriptions (fun prev => prev ++
       [ {| id := pretty (now env 0) +:+ "-in"; role := user;
            text := cl_currentInput cl; timestamp := now env 1 |};
         {| id := pretty (now env 2) +:+ "-out"; role := model;
            text := cl_currentOutput cl; timestamp := now env 3 |} ]);;;
     setCurrentInput (fun _ => "");;;
     setCurrentOutput (fun _ => "")
   else ret tt);;;
  ctxs <- gets (fun w => audioContextsRef (refs w));;
  nodes <- gets (fun w => audioNodesRef (refs w));;
  match truthy (inlineData msg), ctxs, nodes with
  | Some base64Audio, Some c, Some n =>
      cursor <- gets (fun w => nextStartTimeRef (refs w));;
      modify (with_refs (upd_nextStartTimeRef (Math_max cursor (currentTime env))));;;
      bytes <- lift (decodeBase64 base64Audio);;
      ret (Some {| dec_result := decodeAudioData bytes (output c) 24000%positive 1%positive;
                   dec_nodes := n |})
  | _, _, _ => ret None
  end.

Definition onmessage_resumed (msg : LiveServerMessage) (d : option Decoding) : Js unit :=
  match d with
  | Some d =>
      audioBuffer <- lift (dec_result d);;
      source <- new_object;;
      start <- gets (fun w => nextStartTimeRef (refs w));;
      call (source_start source start);;;
      modify (with_refs (upd_nextStartTimeRef (start + duration audioBuffer)));;;
      set_add (sources (dec_nodes d)) source
  | None => ret tt
  end;;;
  if interrupted msg then stopAllAudio else ret tt.

End Handlers.

(** *** Observations used to state the properties *)

(** The playback handles currently in [audioNodesRef.current.sources]. *)
Definition active (w : World) : list SourceNode :=
  match audioNodesRef (refs w) with
  | Some n => set_contents (sources n) w
  | None => []
  end.

Definition cursor (w : World) : Q := nextStartTimeRef (refs w).

(** The times passed to [source.start], oldest first. *)
Definition start_times (w : World) : list Q :=
  omap (fun c => match c with source_start _ t => Some t | _ => None end)
       (calls (browser w)).

(** Every acquired stream has had its tracks stopped. *)
Definition microphone_released (w : World) : Prop :=
  Forall (fun s => tracks_live s = false) (streams (browser w)).

(** The same message without its interruption marker. *)
Definition calm (msg : LiveServerMessage) : LiveServerMessage :=
  {| outputTranscription := outputTranscription msg;
     inputTranscription := inputTranscription msg;
     turnComplete := turnComplete msg;
     inlineData := inlineData msg;
     interrupted := false |}.

(** The world after [stopAllAudio]. *)
Definition silenced (w : World) : World :=
  with_refs (upd_nextStartTimeRef 0)
    (match audioNodesRef (refs w) with
     | Some n =>
         with_browser (upd_sets (fun h => <[sources n := []]> h))
           (with_browser (upd_calls (fun c => c ++ List.map source_stop (active w))) w)
     | None => w
     end).

(** The world after [stopVoiceSession]. *)
Definition torn_down (w : World) : World :=
  with_react (upd_status idle)
    (with_react (upd_isConnecting false)
      (with_react (upd_isConnected false)
        (silenced
          (match sessionRef (refs w) with
           | Some s => with_refs (upd_sessionRef None)
                         (with_browser (upd_calls (fun c => c ++ [session_close s])) w)
           | None => w
           end)))).

(** Inbound events handled one after the other; a handler that throws
    rejects its own promise and the next event is handled all the same. *)
Definition run_events stop_raises decodeBase64 decodeAudioData
    (cl : Closure) (evs : list (MsgEnv * LiveServerMessage)) (w : World) : World :=
  fold_left (fun w ev => run (onmessage stop_raises decodeBase64 decodeAudioData cl ev.1 ev.2) w)
            evs w.

(** A session brought up from [w]: start pressed, microphone granted,
    [onopen] delivered, then the session promise resolved with [s]. *)
Definition open_session (s : Session) (w : World) : option (Closure * World) :=
  match startVoiceSession w with
  | (Normal (Some cl), w1) =>
      match startVoiceSession_stream true w1 with
      | (Normal (Some stream), w2) =>
          Some (cl, run (startVoiceSession_session (Some s)) (run (onopen stream) w2))
      | _ => None
      end
  | _ => None
  end.

(** The schedule in the words of the specification: each chunk starts at
    the later of the cursor and the output clock, and the cursor then
    advances by the chunk's duration.  A chunk is (clock, duration). *)
Fixpoint spec_schedule (cursor : Q) (chunks : list (Q * Q)) : list Q :=
  match chunks with
  | [] => []
  | (clock, d) :: rest =>
      let start := Math_max cursor clock in
      start :: spec_schedule (start + d) rest
  end.

(** The React state after lines 119-120 and after lines 121-124. *)
Definition text_update (msg : LiveServerMessage) (r : ReactState) : ReactState :=
  match outputTranscription msg, inputTranscription msg with
  | Some t, _ => upd_status speaking (upd_currentOutput (fun prev => prev +:+ js_text t) r)
  | None, Some t => upd_status listening (upd_currentInput (fun prev => prev +:+ js_text t) r)
  | None, None => r
  end.

Definition turn_entries (cl : Closure) (env : MsgEnv) : list TranscriptionEntry :=
  [ {| id := pretty (now env 0) +:+ "-in"; role := user;
       text := cl_currentInput cl; timestamp := now env 1 |};
    {| id := pretty (now env 2) +:+ "-out"; role := model;
       text := cl_currentOutput cl; timestamp := now env 3 |} ].

Definition turn_update (cl : Closure) (env : MsgEnv) (msg : LiveServerMessage)
    (r : ReactState) : ReactState :=
  if turnComplete msg then
    upd_currentOutput (fun _ => "") (upd_currentInput (fun _ => "")
      (upd_transcriptions (fun prev => prev ++ turn_entries cl env) r))
  else r.

(** What decoding the message's audio gives, when the handler gets there. *)
Definition decoded decodeBase64
    (decodeAudioData :
       list Byte.byte -> AudioContext -> positive -> positive -> Completion AudioBuffer)
    (msg : LiveServerMessage) (w : World) : option (Completion AudioBuffer) :=
  match truthy (inlineData msg), audioContextsRef (refs w), audioNodesRef (refs w) with
  | Some base64Audio, Some c, Some _ =>
      Some match decodeBase64 base64Audio with
           | Normal bytes => decodeAudioData bytes (output c) 24000%positive 1%positive
           | Throw e => Throw e
           end
  | _, _, _ => None
  end.

(** The world after lines 125-139, given the outcome of decoding. *)
Definition scheduled (env : MsgEnv) (d : option (Completion AudioBuffer)) (w : World) : World :=
  match d, audioNodesRef (refs w) with
  | Some (Normal audioBuffer), Some n =>
      let start := Math_max (cursor w) (currentTime env) in
      run (set_add (sources n) (fresh (browser w)))
        (with_refs (upd_nextStartTimeRef (start + duration audioBuffer))
          (with_browser (upd_calls (fun c => c ++ [source_start (fresh (browser w)) start]))
            (with_browser (upd_fresh S) w)))
  | Some (Throw _), _ =>
      with_refs (upd_nextStartTimeRef (Math_max (cursor w) (currentTime env))) w
  | _, _ => w
  end.

(** [ev] is an audio chunk without interruption marker whose payload
    decodes to [buf] on the output context [c]. *)
Definition chunk_of decodeBase64
    (decodeAudioData :
       list Byte.byte -> AudioContext -> positive -> positive -> Completion AudioBuffer)
    (c : AudioContexts) (ev : MsgEnv * LiveServerMessage) (buf : AudioBuffer) : Prop :=
  interrupted ev.2 = false /\
  exists base64Audio bytes,
    truthy (inlineData ev.2) = Some base64Audio
    /\ decodeBase64 base64Audio = Normal bytes
    /\ decodeAudioData bytes (output c) 24000%positive 1%positive = Normal buf.

(** Arrival clock and duration of each chunk. *)
Definition timeline (evs : list (MsgEnv * LiveServerMessage)) (bufs : list AudioBuffer)
    : list (Q * Q) :=
  zip (List.map (fun ev => currentTime ev.1) evs) (List.map duration bufs).

(** The cursor after a run of chunks, in the words of the specification. *)
Definition spec_cursor (cursor : Q) (chunks : list (Q * Q)) : Q :=
  fold_left (fun c chunk => (Math_max c chunk.1 + chunk.2)%Q) chunks cursor.

(** Two timelines agree up to equality of rationals. *)
Definition same_timeline (a b : list (Q * Q)) : Prop :=
  Forall2 (fun x y => (x.1 == y.1)%Q /\ (x.2 == y.2)%Q) a b.

(** *** Stand-ins for the browser, for concrete runs *)

Module Demo.

Definition stop_fine : World -> SourceNode -> bool := fun _ _ => false.
Definition stop_throws : World -> SourceNode -> bool := fun _ _ => true.

Definition decodeBase64 (s : string) : Completion (list Byte.byte) :=
  Normal (String.list_byte_of_string s).

(** A decoder that yields half a second of audio per payload byte. *)
Definition decodeAudioData (bytes : list Byte.byte) (ctx : AudioContext)
    (rate channels : positive) : Completion AudioBuffer :=
  match bytes with
  | [] => Throw "RangeError"
  | _ => Normal {| buf_length := 12000 * N.of_nat (length bytes); buf_sampleRate := rate |}
  end.

Definition at_time (ms : Z) (clock : Q) : MsgEnv :=
  {| now := fun _ => ms; currentTime := clock |}.

Definition silent_msg : LiveServerMessage :=
  {| outputTranscription := None; inputTranscription := None; turnComplete := false;
     inlineData := None; interrupted := false |}.

Definition heard (fragment : string) : LiveServerMessage :=
  {| outputTranscription := None; inputTranscription := Some {| tr_text := Some fragment |};
     turnComplete := false; inlineData := None; interrupted := false |}.
Definition spoken (fragment : string) : LiveServerMessage :=
  {| outputTranscription := Some {| tr_text := Some fragment |}; inputTranscription := None;
     turnComplete := false; inlineData := None; interrupted := false |}.
Definition turn_done : LiveServerMessage :=
  {| outputTranscription := None; inputTranscription := None; turnComplete := true;
     inlineData := None; interrupted := false |}.
Definition chunk (payload : string) : LiveServerMessage :=
  {| outputTranscription := None; inputTranscription := None; turnComplete := false;
     inlineData := Some payload; interrupted := false |}.
Definition barge_in : LiveServerMessage :=
  {| outputTranscription := None; inputTranscription := None; turnComplete := false;
     inlineData := None; interrupted := true |}.

(** The closure and the world of the first session of a fresh component. *)
Definition first_closure : Closure :=
  match open_session 7 initial with
  | Some (cl, _) => cl
  | None => {| cl_currentInput := ""; cl_currentOutput := "" |}
  end.
Definition opened : World :=
  match open_session 7 initial with Some (_, w) => w | None => initial end.

(** ... after the user said "hello" and the model answered "hi". *)
Definition mid_turn : World :=
  run_events stop_fine decodeBase64 decodeAudioData first_closure
    [(at_time 1700000000000 0, heard "hello"); (at_time 1700000000400 0, spoken "hi")] opened.

(** ... with two response chunks in flight. *)
Definition playing : World :=
  run_events stop_fine decodeBase64 decodeAudioData first_closure
    [(at_time 1700000000500 0, chunk "AA"); (at_time 1700000000510 (1 # 100), chunk "A")] mid_turn.

(** The two chunks of the scenario in section 8 and what they decode to. *)
Definition two_chunks : list (MsgEnv * LiveServerMessage) :=
  [ (at_time 1700000000500 0, chunk "AA");
    (at_time 1700000000510 (1 # 100), chunk "A") ].
Definition two_buffers : list AudioBuffer :=
  [ {| buf_length := 24000; buf_sampleRate := 24000 |};
    {| buf_length := 12000; buf_sampleRate := 24000 |} ].

(** [mid_turn] after the turn-complete event. *)
Definition turn_finished : World :=
  run (onmessage stop_fine decodeBase64 decodeAudioData first_closure
         (at_time 1700000000900 0) turn_done) mid_turn.

(** An interruption arriving 0.7 s into playback. *)
Definition interrupted_at : MsgEnv := at_time 1700000000700 (7 # 10).

End Demo.

(** *** The component as an event-driven machine *)

(** Everything that can run on the event loop for the voice panel: the
    start button and the two resumptions of [startVoiceSession], the
    session callbacks, the ['ended'] listener of a source, and the stop
    button (which is also what [onerror] and [onclose] call). *)
Inductive Event :=
| StartPressed
| StreamSettled (granted : bool)
| SessionSettled (r : option Session)
| Opened (stream : nat)
| Message (cl : Closure) (env : MsgEnv) (msg : LiveServerMessage)
| SourceEnded (srcs : SetRef) (source : SourceNode)
| Stopped.

Definition handle stop_raises decodeBase64 decodeAudioData (w : World) (e : Event) : World :=
  match e with
  | StartPressed => run startVoiceSession w
  | StreamSettled granted => run (startVoiceSession_stream granted) w
  | SessionSettled r => run (startVoiceSession_session r) w
  | Opened stream => run (onopen stream) w
  | Message cl env msg => run (onmessage stop_raises decodeBase64 decodeAudioData cl env msg) w
  | SourceEnded srcs source => run (onended srcs source) w
  | Stopped => run (stopVoiceSession stop_raises) w
  end.

Definition handle_all stop_raises decodeBase64 decodeAudioData
    (events : list Event) (w : World) : World :=
  fold_left (handle stop_raises decodeBase64 decodeAudioData) events w.

(** The fragment a message adds to [currentOutput], and the one it adds
    to [currentInput] (lines 119-120: the input branch is an [else if]). *)
Definition out_fragment (msg : LiveServerMessage) : string :=
  match outputTranscription msg with
  | Some t => js_text t
  | None => ""
  end.
Definition in_fragment (msg : LiveServerMessage) : string :=
  match outputTranscription msg, inputTranscription msg with
  | None, Some t => js_text t
  | _, _ => ""
  end.

Definition glue (parts : list string) : string := fold_right String.append "" parts.

(** The ['ended'] events of the sources in [ended], in that order, all on
    the set [srcs]. *)
Definition all_ended (srcs : SetRef) (ended : list SourceNode) (w : World) : World :=
  fold_left (fun w source => run (onended srcs source) w) ended w.

(** More stand-ins: a base64 decoder that rejects a payload starting with
    an exclamation mark. *)
Module Faulty.

Definition decodeBase64 (s : string) : Completion (list Byte.byte) :=
  match s with
  | String c _ =>
      if Ascii.eqb c (Ascii.ascii_of_nat 33) then Throw "InvalidCharacterError"
      else Normal (String.list_byte_of_string s)
  | EmptyString => Normal []
  end.

(** The world right after the start button and the microphone grant, the
    connection still being negotiated. *)
Definition connecting : World :=
  run (startVoiceSession_stream true) (run startVoiceSession initial).

(** A message whose audio does not decode and which also carries the
    interruption marker. *)
Definition bad_chunk : LiveServerMessage :=
  {| outputTranscription := None; inputTranscription := None; turnComplete := false;
     inlineData := Some "!bad"; interrupted := true |}.

(** A whole session: start, grant, open, resolve, one fragment, stop. *)
Definition short_session : list Event :=
  [StartPressed; StreamSettled true; Opened 5; SessionSettled (Some 7);
   Message Demo.first_closure (Demo.at_time 1700000000000 0) (Demo.heard "hello");
   Stopped].

End Faulty.

End Voice.

(** ** The persistence service, [src/services/persistence.ts] *)

Module Persistence.

(** Records are plain JSON values ([any[]] in the source). *)
#[local] Unset Elimination Schemes.
Inductive Json :=
| JNull
| JBool (b : bool)
| JNum (n : Z)
| JStr (s : string)
| JArr (l : list Json)
| JObj (fields : list (string * Json)).
#[local] Set Elimination Schemes.

Record AppData := {
  routine : list Json;
  students : list Json;
  faculty : list Json;
  notices : list Json;
  attendance : list Json;
  polls : list Json;
  courses : list Json
}.

Definition JSONBIN_API_KEY : string := "$2b$10$EXAMPLE_KEY_REPLACE_ME".
Definition JSONBIN_BIN_ID : string := "64fEXAMPLE_BIN_ID".
Definition LOCAL_STORAGE_KEY : string := "uu_eee_master_state".

Record Request := {
  url : string;
  method : string;
  headers : list (string * string);
  body : option string
}.

(** What [await fetch(...)] gives: a response, or a thrown network error. *)
Inductive FetchResult :=
| Response (ok : bool) (payload : string)
| NetworkError.

(** Operations on the outside world, in the order they are issued. *)
Inductive IO :=
| SetItem (key value : string)
| Fetch (r : Request).

Record Store := {
  localStorage : gmap string string;
  trace : list IO
}.

Definition setItem (key value : string) (s : Store) : Store :=
  {| localStorage := <[key := value]> (localStorage s);
     trace := trace s ++ [SetItem key value] |}.
Definition getItem (key : string) (s : Store) : option string := localStorage s !! key.
Definition issue (r : Request) (s : Store) : Store :=
  {| localStorage := localStorage s; trace := trace s ++ [Fetch r] |}.

Section Service.

(** [JSON.stringify] and [JSON.parse] on documents, and what
    [(await response.json()).record] yields for a response payload. *)
Variable JSON_stringify : AppData -> string.
Variable JSON_parse : string -> Completion AppData.
Variable response_record : string -> Completion AppData.

(** The remote store: the outcome of each request. *)
Variable fetch : Request -> FetchResult.

Definition put_request (data : AppData) : Request :=
  {| url := "https://api.jsonbin.io/v3/b/" +:+ JSONBIN_BIN_ID;
     method := "PUT";
     headers := [("Content-Type", "application/json"); ("X-Master-Key", JSONBIN_API_KEY)];
     body := Some (JSON_stringify data) |}.

Definition get_request : Request :=
  {| url := "https://api.jsonbin.io/v3/b/" +:+ JSONBIN_BIN_ID +:+ "/latest";
     method := "GET";
     headers := [("X-Master-Key", JSONBIN_API_KEY)];
     body := None |}.

(** [save], lines 55-74. *)
Definition save (data : AppData) (s : Store) : bool * Store :=
  let s1 := setItem LOCAL_STORAGE_KEY (JSON_stringify data) s in
  let s2 := issue (put_request data) s1 in
  match fetch (put_request data) with
  | Response ok _ => (ok, s2)
  | NetworkError => (false, s2)
  end.

(** The fallback of [load], lines 48-49; [JSON.parse] may throw there. *)
Definition load_local (s : Store) : Completion (option AppData) :=
  match getItem LOCAL_STORAGE_KEY s with
  | Some localData =>
      if String.eqb localData "" then Normal None
      else match JSON_parse localData with
           | Normal d => Normal (Some d)
           | Throw e => Throw e
           end
  | None => Normal None
  end.

(** [load], lines 27-50. *)
Definition load (s : Store) : Completion (option AppData) * Store :=
  let s1 := issue get_request s in
  match fetch get_request with
  | Response true payload =>
      match response_record payload with
      | Normal data =>
          (Normal (Some data), setItem LOCAL_STORAGE_KEY (JSON_stringify data) s1)
      | Throw _ => (load_local s1, s1)
      end
  | Response false _ => (load_local s1, s1)
  | NetworkError => (load_local s1, s1)
  end.

End Service.

End Persistence.

(** ** The record collections and the debounced save effect of [App] *)

Module Sync.
Import Persistence.

Inductive SyncStatus := synced | syncing | error | sync_idle.

(** [keyof AppData] *)
Inductive Category :=
| k_routine | k_students | k_faculty | k_notices | k_attendance | k_polls | k_courses.

Definition get (c : Category) (d : AppData) : list Json :=
  match c with
  | k_routine => routine d | k_students => students d | k_faculty => faculty d
  | k_notices => notices d | k_attendance => attendance d | k_polls => polls d
  | k_courses => courses d
  end.

Definition set (c : Category) (v : list Json) (d : AppData) : AppData :=
  {| routine := if c is k_routine then v else routine d;
     students := if c is k_students then v else students d;
     faculty := if c is k_faculty then v else faculty d;
     notices := if c is k_notices then v else notices d;
     attendance := if c is k_attendance then v else attendance d;
     polls := if c is k_polls then v else polls d;
     courses := if c is k_courses then v else courses d |}.

(** The initial value of [data], lines 19-27. *)
Definition empty_data : AppData :=
  {| routine := []; students := []; faculty := []; notices := [];
     attendance := []; polls := []; courses := [] |}.

(** [s.split(',')] *)
Fixpoint split_on (sep : Ascii.ascii) (acc : string) (s : string) : list string :=
  match s with
  | EmptyString => [acc]
  | String c rest =>
      if Ascii.eqb c sep then acc :: split_on sep "" rest
      else split_on sep (acc +:+ String c "") rest
  end.
Definition split_comma (s : string) : list string := split_on (Ascii.ascii_of_nat 44) "" s.

(** [array.filter((_, i) => keep(i))] *)
Fixpoint filter_index {A} (keep : nat -> bool) (i : nat) (l : list A) : list A :=
  match l with
  | [] => []
  | x :: rest =>
      if keep i then x :: filter_index keep (S i) rest
      else filter_index keep (S i) rest
  end.

(** [handleRemoveItem], lines 172-176. *)
Definition handleRemoveItem (category : Category) (index : nat) (data : AppData) : AppData :=
  set category (filter_index (fun i => negb (Nat.eqb i index)) 0 (get category data)) data.

(** The component state the save effect reads and writes. *)
Record SyncState := {
  data : AppData;
  lastSavedData : string;                 (* lastSavedData.current *)
  timer : option (AppData * string);      (* the pending timeout: its [data] and [currentDataStr] *)
  syncStatus : SyncStatus;
  saves : list AppData;                   (* arguments of the [persistence.save] calls made *)
  store : Store
}.

Definition mounted : SyncState :=
  {| data := empty_data; lastSavedData := ""; timer := None; syncStatus := sync_idle;
     saves := []; store := {| localStorage := ∅; trace := [] |} |}.

Section Effect.

Variable JSON_stringify : AppData -> string.
Variable fetch : Request -> FetchResult.
(** [String.prototype.trim] and [new Date().toLocaleDateString()]. *)
Variable trim : string -> string.
Variable today : string.

(** [formData.get(name)]: the field's text, or [null]. *)
Definition form_get (form : string -> option string) (name : string) : Json :=
  match form name with Some v => JStr v | None => JNull end.

Definition is_type (showForm : option string) (name : string) : bool :=
  match showForm with Some t => String.eqb t name | None => false end.

(** [handleAddItem], lines 157-170: the value handed to [setData], or
    [None] when the handler throws ([split] on a missing field). *)
Definition handleAddItem (showForm : option string) (form : string -> option string)
    (data : AppData) : option AppData :=
  let fd := form_get form in
  if is_type showForm "home" || is_type showForm "routine" then
    Some (set k_routine (routine data ++
      [JObj [("day", fd "day"); ("sub", fd "sub"); ("room", fd "room")]]) data)
  else if is_type showForm "students" then
    Some (set k_students (students data ++
      [JObj [("name", fd "name"); ("id", fd "id"); ("dip", fd "dip"); ("phone", fd "phone")]]) data)
  else if is_type showForm "faculty" then
    Some (set k_faculty (faculty data ++
      [JObj [("name", fd "name"); ("post", fd "post"); ("phone", fd "phone")]]) data)
  else if is_type showForm "notices" then
    Some (set k_notices (notices data ++
      [JObj [("title", fd "title"); ("desc", fd "desc"); ("date", JStr today)]]) data)
  else if is_type showForm "academic" then
    Some (set k_courses (courses data ++
      [JObj [("name", fd "name"); ("code", fd "code"); ("progress", JNum 0);
             ("status", JStr "Ongoing")]]) data)
  else if is_type showForm "polls" then
    match form "options" with
    | Some options =>
        let opts := List.map (fun o => JObj [("text", JStr (trim o)); ("votes", JNum 0)])
                             (split_comma options) in
        Some (set k_polls (polls data ++
          [JObj [("question", fd "question"); ("options", JArr opts)]]) data)
    | None => None
    end
  else Some data.

(** The guard of line 48. *)
Definition skip_save (data : AppData) (last : string) : bool :=
  String.eqb (JSON_stringify data) last
  || (Nat.eqb (length (routine data)) 0 && Nat.eqb (length (students data)) 0
      && Nat.eqb (length (notices data)) 0).

(** The effect of lines 46-62, run after a render with a new [data]: the
    previous run's cleanup clears its timeout, then the body runs. *)
Definition save_effect (st : SyncState) : SyncState :=
  {| data := data st; lastSavedData := lastSavedData st;
     timer := if skip_save (data st) (lastSavedData st) then None
              else Some (data st, JSON_stringify (data st));
     syncStatus := syncStatus st; saves := saves st; store := store st |}.

(** [setData(newData)] followed by the render and its effects. *)
Definition setData (newData : AppData) (st : SyncState) : SyncState :=
  save_effect {| data := newData; lastSavedData := lastSavedData st; timer := timer st;
                 syncStatus := syncStatus st; saves := saves st; store := store st |}.

(** The timeout callback of lines 50-59, 1500 ms after it was set. *)
Definition timer_fired (st : SyncState) : SyncState :=
  match timer st with
  | None => st
  | Some (d, currentDataStr) =>
      let '(success, store') := save JSON_stringify fetch d (store st) in
      {| data := data st;
         lastSavedData := if success then currentDataStr else lastSavedData st;
         timer := None;
         syncStatus := if success then synced else error;
         saves := saves st ++ [d];
         store := store' |}
  end.

(** What the user and the clock can do to the collections. *)
Inductive Event :=
| Add (showForm : option string) (form : string -> option string)
| Remove (category : Category) (index : nat)
| Elapsed.

Definition step (st : SyncState) (e : Event) : SyncState :=
  match e with
  | Add showForm form =>
      match handleAddItem showForm form (data st) with
      | Some d => setData d st
      | None => st
      end
  | Remove category index => setData (handleRemoveItem category index (data st)) st
  | Elapsed => timer_fired st
  end.

End Effect.

(** *** Observations used to state the properties *)

Definition three_empty (d : AppData) : Prop :=
  routine d = [] /\ students d = [] /\ notices d = [].

(** An event that cannot put a record into routine, students or notices:
    a deletion, a timeout, or an addition through any other form. *)
Definition confined (e : Event) : bool :=
  match e with
  | Add showForm _ =>
      negb (is_type showForm "home" || is_type showForm "routine"
            || is_type showForm "students" || is_type showForm "notices")
  | Remove _ _ => true
  | Elapsed => true
  end.

Definition run_events JSON_stringify fetch trim today
    (events : list Event) (st : SyncState) : SyncState :=
  fold_left (step JSON_stringify fetch trim today) events st.

(** *** Stand-ins for the browser, for concrete runs *)

Module Demo.

Definition dquote : string := String.String (Ascii.ascii_of_nat 34) "".
Definition quote (s : string) : string := dquote +:+ s +:+ dquote.

Definition join (parts : list string) : string := String.concat "," parts.

(** A serializer in the manner of [JSON.stringify] (no escaping). *)
Fixpoint json_text (j : Json) : string :=
  match j with
  | JNull => "null"
  | JBool b => if b then "true" else "false"
  | JNum n => pretty n
  | JStr s => quote s
  | JArr l => "[" +:+ join (List.map json_text l) +:+ "]"
  | JObj fields =>
      "{" +:+ join (List.map (fun kv => quote kv.1 +:+ ":" +:+ json_text kv.2) fields) +:+ "}"
  end.

Definition stringify (d : AppData) : string :=
  json_text (JObj [("routine", JArr (routine d)); ("students", JArr (students d));
                   ("faculty", JArr (faculty d)); ("notices", JArr (notices d));
                   ("attendance", JArr (attendance d)); ("polls", JArr (polls d));
                   ("courses", JArr (courses d))]).

Definition online : Request -> FetchResult := fun _ => Response true "{}".
Definition offline : Request -> FetchResult := fun _ => NetworkError.
Definition rejecting : Request -> FetchResult := fun _ => Response false "Unauthorized".

Definition no_trim (s : string) : string := s.

Definition lecture : Json :=
  JObj [("day", JStr "Sun 9:00"); ("sub", JStr "Circuits"); ("room", JStr "402")].

Definition one_lecture : AppData := set k_routine [lecture] empty_data.

Definition faculty_form (name : string) : option string :=
  if String.eqb name "name" then Some "Dr. Rahman"
  else if String.eqb name "post" then Some "Professor"
  else None.

(** A component whose only record is one routine entry, with the save of
    that entry still pending. *)
Definition pending : SyncState := setData stringify one_lecture mounted.

(** The data after that entry is deleted again, and what happens next. *)
Definition cleared : AppData := handleRemoveItem k_routine 0 (data pending).
Definition later : list Event :=
  [Elapsed; Add (Some "faculty") faculty_form; Elapsed; Remove k_polls 0; Elapsed].

End Demo.

(** *** The rest of the component: views, counters and the initial load *)

(** The notices in display order, lines 284 and 368:
    [data.notices.slice().reverse()]. *)
Definition displayed_notices (d : AppData) : list Json := reverse (notices d).

(** The delete button of the [i]-th displayed notice, lines 289 and 373:
    [handleRemoveItem('notices', data.notices.length - 1 - i)]; [i] is an
    index into the reversed array, so the difference is not negative. *)
Definition remove_displayed_notice (i : nat) (d : AppData) : AppData :=
  handleRemoveItem k_notices (length (notices d) - 1 - i) d.

(** The number of records in all collections. *)
Definition records (d : AppData) : nat :=
  length (routine d) + length (students d) + length (faculty d) + length (notices d)
  + length (attendance d) + length (polls d) + length (courses d).

(** The forms [handleAddItem] knows. *)
Definition known_form (showForm : option string) : bool :=
  is_type showForm "home" || is_type showForm "routine" || is_type showForm "students"
  || is_type showForm "faculty" || is_type showForm "notices"
  || is_type showForm "academic" || is_type showForm "polls".

Fixpoint count_char (c : Ascii.ascii) (s : string) : nat :=
  match s with
  | EmptyString => 0
  | String x rest => (if Ascii.eqb x c then 1 else 0) + count_char c rest
  end.

(** A poll option as [handleAddItem] builds it. *)
Definition fresh_option (text : string) : Json :=
  JObj [("text", JStr text); ("votes", JNum 0)].

(** The pending timeout, if any, was set for the data now on screen, and
    that data has a routine entry, a student or a notice. *)
Definition timer_current (JSON_stringify : AppData -> string) (st : SyncState) : Prop :=
  match timer st with
  | Some (d, str) => d = data st /\ str = JSON_stringify d /\ ~ three_empty d
  | None => True
  end.

Definition with_syncStatus (v : SyncStatus) (st : SyncState) : SyncState :=
  {| data := data st; lastSavedData := lastSavedData st; timer := timer st;
     syncStatus := v; saves := saves st; store := store st |}.
Definition with_store (v : Store) (st : SyncState) : SyncState :=
  {| data := data st; lastSavedData := lastSavedData st; timer := timer st;
     syncStatus := syncStatus st; saves := saves st; store := v |}.

Section Loading.

Variable JSON_stringify : AppData -> string.
Variable JSON_parse : string -> Completion AppData.
Variable response_record : string -> Completion AppData.
Variable fetch : Request -> FetchResult.

(** [loadInitialData], lines 30-42.  A document object is truthy, so the
    [else] branch is the [null] result; when [persistence.load] rejects,
    so does this function, after [setSyncStatus('syncing')]. *)
Definition loadInitialData (st : SyncState) : Completion unit * SyncState :=
  let st1 := with_syncStatus syncing st in
  match load JSON_stringify JSON_parse response_record fetch (store st1) with
  | (Normal (Some loadedData), store') =>
      (Normal tt,
       with_syncStatus synced (setData JSON_stringify loadedData (with_store store' st1)))
  | (Normal None, store') => (Normal tt, with_syncStatus error (with_store store' st1))
  | (Throw e, store') => (Throw e, with_store store' st1)
  end.

End Loading.

Global Instance Category_eq_dec : EqDecision Category.
Proof. solve_decision. Defined.

(** A parser that reads back what [Demo.stringify] wrote for the one
    document the runs below use, and rejects everything else. *)
Module Demo2.

Definition parse (s : string) : Completion AppData :=
  if String.eqb s (Demo.stringify Demo.one_lecture) then Normal Demo.one_lecture
  else Throw "SyntaxError".

Definition record_of (payload : string) : Completion AppData := parse payload.

Definition serving_lecture : Request -> FetchResult :=
  fun _ => Response true (Demo.stringify Demo.one_lecture).

(** A store whose cache holds text that is not JSON, and a component
    mounted on it. *)
Definition corrupt : Store :=
  {| localStorage := {[ LOCAL_STORAGE_KEY := "{oops" ]}; trace := [] |}.
Definition mounted_on_corrupt : SyncState := with_store corrupt mounted.

Definition notice (title : string) : Json :=
  JObj [("title", JStr title); ("desc", JStr "..."); ("date", JStr "11/2/2026")].

Definition three_notices : AppData :=
  set k_notices [notice "first"; notice "second"; notice "third"] empty_data.

Definition poll_form (name : string) : option string :=
  if String.eqb name "question" then Some "Lab on Friday?"
  else if String.eqb name "options" then Some "Yes, No,,Maybe"
  else None.

End Demo2.

End Sync.

(** * Properties of the voice session pipeline *)

Section VoiceProofs.
Import Voice.

Variable stop_raises : World -> SourceNode -> bool.
Variable decodeBase64 : string -> Completion (list Byte.byte).
Variable decodeAudioData :
  list Byte.byte -> AudioContext -> positive -> positive -> Completion AudioBuffer.

Local Abbreviation stopAllAudio := (stopAllAudio stop_raises).
Local Abbreviation stopVoiceSession := (stopVoiceSession stop_raises).
Local Abbreviation onmessage := (onmessage stop_raises decodeBase64 decodeAudioData).
Local Abbreviation run_events := (run_events stop_raises decodeBase64 decodeAudioData).

(** *** [stopAllAudio] and [stopVoiceSession] in closed form *)

Lemma log_nothing w : with_browser (upd_calls (fun c => c ++ [])) w = w.
Proof.
  destruct w as [r f [a b c d]]. unfold with_browser, upd_calls. simpl.
  by rewrite app_nil_r.
Qed.

Lemma stop_loop l w :
  forEach (fun s => try_catch (node_stop stop_raises s) (fun _ => ret tt)) l w
  = (Normal tt, with_browser (upd_calls (fun c => c ++ List.map source_stop l)) w).
Proof.
  revert w. induction l as [|s l IH]; intros w; simpl.
  - unfold ret. by rewrite log_nothing.
  - unfold bind, try_catch, node_stop, run, call, modify, ret. simpl.
    destruct (stop_raises w s); rewrite IH; f_equal;
      destruct w as [r f [a b c d]]; unfold with_browser, upd_calls; simpl;
      by rewrite <- app_assoc.
Qed.

Lemma stopAllAudio_eq w : stopAllAudio w = (Normal tt, silenced w).
Proof.
  unfold Voice.stopAllAudio, silenced, active, bind, gets, modify, set_clear.
  destruct (audioNodesRef (refs w)) as [n|]; [|done].
  rewrite stop_loop. reflexivity.
Qed.

Lemma set_contents_cleared (r : nat) (h : list (list SourceNode)) :
  default [] (<[r := []]> h !! r) = @nil SourceNode.
Proof.
  destruct (decide (r < length h)) as [Hlt|Hge].
  - by rewrite list_lookup_insert_eq.
  - rewrite list_insert_ge by lia. by rewrite lookup_ge_None_2 by lia.
Qed.

Lemma active_silenced w : active (silenced w) = [].
Proof.
  unfold silenced, active. destruct w as [r [c [n|] s t] b]; simpl; [|done].
  unfold set_contents. simpl. apply set_contents_cleared.
Qed.

Lemma silenced_cursor w : cursor (silenced w) = 0%Q.
Proof. unfold silenced, cursor. by destruct (audioNodesRef (refs w)). Qed.

Lemma silenced_calls w :
  calls (browser (silenced w)) = calls (browser w) ++ List.map source_stop (active w).
Proof.
  unfold silenced, active. destruct (audioNodesRef (refs w)); simpl; [done|].
  by rewrite app_nil_r.
Qed.

Lemma silenced_react w : react (silenced w) = react w.
Proof. unfold silenced. by destruct (audioNodesRef (refs w)). Qed.

Lemma silenced_streams w : streams (browser (silenced w)) = streams (browser w).
Proof. unfold silenced. by destruct (audioNodesRef (refs w)). Qed.

Lemma silenced_sessionRef w : sessionRef (refs (silenced w)) = sessionRef (refs w).
Proof. unfold silenced. by destruct (audioNodesRef (refs w)). Qed.

Lemma silenced_idem w : silenced (silenced w) = silenced w.
Proof.
  unfold silenced at 1. rewrite active_silenced.
  unfold silenced. destruct w as [r [c [n|] s t] [h ms k cs]]; simpl; [|done].
  unfold with_refs, with_browser, upd_sets, upd_calls, upd_nextStartTimeRef; simpl.
  rewrite list_insert_insert_eq. by rewrite app_nil_r.
Qed.

Lemma silenced_with_react f w : silenced (with_react f w) = with_react f (silenced w).
Proof. unfold silenced. destruct w as [r [c [n|] s t] b]; reflexivity. Qed.

Lemma stopVoiceSession_eq w : stopVoiceSession w = (Normal tt, torn_down w).
Proof.
  unfold Voice.stopVoiceSession, torn_down, bind, gets.
  destruct (sessionRef (refs w)) as [s|]; simpl; rewrite stopAllAudio_eq; reflexivity.
Qed.

Lemma torn_down_sessionRef w : sessionRef (refs (torn_down w)) = None.
Proof. unfold torn_down, silenced. destruct w as [r [c [n|] [s|] t] b]; reflexivity. Qed.

Lemma torn_down_idem w : torn_down (torn_down w) = torn_down w.
Proof.
  unfold torn_down at 1. rewrite torn_down_sessionRef. unfold torn_down.
  set (w1 := match sessionRef (refs w) with Some s => _ | None => w end).
  rewrite !silenced_with_react, silenced_idem.
  destruct (silenced w1) as [[a b c d e f] rf br]. reflexivity.
Qed.

(** *** [onmessage] in closed form *)

Lemma with_react_eta w : with_react (fun r => r) w = w.
Proof. by destruct w. Qed.

Lemma onmessage_eq cl env msg w :
  let w1 := with_react (fun r => turn_update cl env msg (text_update msg r)) w in
  let d := decoded decodeBase64 decodeAudioData msg w1 in
  let w2 := scheduled env d w1 in
  onmessage cl env msg w =
    match d with
    | Some (Throw e) => (Throw e, w2)
    | _ => if interrupted msg then (Normal tt, silenced w2) else (Normal tt, w2)
    end.
Proof.
  intros w1 d w2. subst w1 d w2.
  unfold Voice.onmessage, decoded, scheduled, text_update, turn_update, cursor.
  unfold bind, gets, modify, ret, lift, setCurrentOutput, setCurrentInput, setStatus,
    setTranscriptions, call, new_object, run, turn_entries.
  destruct w as [r rf br].
  destruct (outputTranscription msg) as [to|], (inputTranscription msg) as [ti|],
    (turnComplete msg); simpl;
  destruct (truthy (inlineData msg)) as [b|], (audioContextsRef rf) as [c|],
    (audioNodesRef rf) as [n|] eqn:Hn; simpl;
  try (destruct (decodeBase64 b) as [bytes|e]; simpl;
       [destruct (decodeAudioData bytes (output c) 24000%positive 1%positive) as [buf|e]; simpl|]);
  rewrite ?Hn; simpl;
  destruct (interrupted msg); try rewrite stopAllAudio_eq; reflexivity.
Qed.

Lemma decoded_calm msg w :
  decoded decodeBase64 decodeAudioData (calm msg) w = decoded decodeBase64 decodeAudioData msg w.
Proof. reflexivity. Qed.

Lemma onmessage_keeps_audio_refs cl env msg w :
  audioContextsRef (refs (run (onmessage cl env msg) w)) = audioContextsRef (refs w)
  /\ audioNodesRef (refs (run (onmessage cl env msg) w)) = audioNodesRef (refs w).
Proof.
  unfold run. rewrite onmessage_eq.
  set (w1 := with_react _ w).
  assert (H1 : refs w1 = refs w) by reflexivity.
  assert (H2 : forall d, audioContextsRef (refs (scheduled env d w1)) = audioContextsRef (refs w)
                         /\ audioNodesRef (refs (scheduled env d w1)) = audioNodesRef (refs w)).
  { intros d. unfold scheduled. rewrite <- H1.
    destruct d as [[buf|e]|], (audioNodesRef (refs w1)) eqn:Hn; simpl; rewrite ?Hn; auto. }
  assert (H3 : forall x, audioContextsRef (refs (silenced x)) = audioContextsRef (refs x)
                         /\ audioNodesRef (refs (silenced x)) = audioNodesRef (refs x)).
  { intros x. unfold silenced. destruct (audioNodesRef (refs x)) eqn:Hx; simpl; rewrite ?Hx; auto. }
  destruct (decoded decodeBase64 decodeAudioData msg w1) as [[buf|e]|];
    destruct (interrupted msg); cbn [snd];
    rewrite ?(proj1 (H3 _)), ?(proj2 (H3 _)); apply H2.
Qed.

(** *** Arithmetic of the playback cursor *)

Lemma Math_max_l a b : (a <= Math_max a b)%Q.
Proof.
  unfold Math_max. destruct (Qle_bool a b) eqn:E.
  - by apply Qle_bool_iff.
  - apply Qle_refl.
Qed.

Lemma Math_max_r a b : (b <= Math_max a b)%Q.
Proof.
  unfold Math_max. destruct (Qle_bool a b) eqn:E.
  - apply Qle_refl.
  - apply Qlt_le_weak, Qnot_le_lt. intros H. apply Qle_bool_iff in H. congruence.
Qed.

Lemma duration_nonneg b : (0 <= duration b)%Q.
Proof. unfold duration, Qle. simpl. lia. Qed.

Lemma cursor_set_add r n w : cursor (run (set_add r n) w) = cursor w.
Proof. reflexivity. Qed.

Lemma scheduled_cursor_le env d w : (cursor w <= cursor (scheduled env d w))%Q.
Proof.
  unfold scheduled.
  destruct d as [[buf|e]|], (audioNodesRef (refs w)); try apply Qle_refl.
  - rewrite cursor_set_add. unfold cursor at 2. simpl.
    eapply Qle_trans; [apply (Math_max_l _ (currentTime env))|].
    rewrite <- (Qplus_0_r (Math_max _ _)) at 1.
    apply Qplus_le_r, duration_nonneg.
  - apply Math_max_l.
  - apply Math_max_l.
Qed.

(** Absent an interruption marker, no message moves the cursor back. *)
Lemma cursor_monotone cl env msg w :
  interrupted msg = false -> (cursor w <= cursor (run (onmessage cl env msg) w))%Q.
Proof.
  intros Hi. unfold run. rewrite onmessage_eq, Hi.
  set (w1 := with_react _ w). change (cursor w) with (cursor w1).
  destruct (decoded decodeBase64 decodeAudioData msg w1) as [[buf|e]|];
    apply scheduled_cursor_le.
Qed.

Lemma run_events_snoc cl evs ev w :
  run_events cl (evs ++ [ev]) w = run (onmessage cl ev.1 ev.2) (run_events cl evs w).
Proof. unfold Voice.run_events. by rewrite fold_left_app. Qed.

(** One decodable chunk: where it starts and where the cursor ends up. *)
Lemma chunk_step cl c n ev buf w :
  audioContextsRef (refs w) = Some c -> audioNodesRef (refs w) = Some n ->
  chunk_of decodeBase64 decodeAudioData c ev buf ->
  let w' := run (onmessage cl ev.1 ev.2) w in
  let start := Math_max (cursor w) (currentTime ev.1) in
  start_times w' = start_times w ++ [start]
  /\ cursor w' = (start + duration buf)%Q.
Proof.
  intros Hc Hn (Hi & b & bytes & Hb & Hd1 & Hd2) w' start. subst w' start.
  unfold run. rewrite onmessage_eq, Hi.
  set (w1 := with_react _ w).
  assert (Hdec : decoded decodeBase64 decodeAudioData ev.2 w1 = Some (Normal buf)).
  { unfold decoded. subst w1. simpl. by rewrite Hb, Hc, Hn, Hd1, Hd2. }
  rewrite Hdec. unfold scheduled. change (audioNodesRef (refs w1)) with (audioNodesRef (refs w)).
  rewrite Hn. simpl. split; [|reflexivity].
  unfold start_times. simpl. by rewrite omap_app.
Qed.

Lemma schedule_follows cl c n evs bufs : forall w,
  audioContextsRef (refs w) = Some c -> audioNodesRef (refs w) = Some n ->
  Forall2 (chunk_of decodeBase64 decodeAudioData c) evs bufs ->
  start_times (run_events cl evs w)
    = start_times w ++ spec_schedule (cursor w) (timeline evs bufs)
  /\ cursor (run_events cl evs w) = spec_cursor (cursor w) (timeline evs bufs).
Proof.
  intros w Hc Hn HF. revert w Hc Hn.
  induction HF as [|ev buf evs bufs Hev HF IH]; intros w Hc Hn.
  - split; [|reflexivity]. simpl. by rewrite app_nil_r.
  - destruct (chunk_step cl c n ev buf w Hc Hn Hev) as [Hs Hcur].
    destruct (onmessage_keeps_audio_refs cl ev.1 ev.2 w) as [Hc' Hn'].
    rewrite Hc in Hc'. rewrite Hn in Hn'.
    destruct (IH _ Hc' Hn') as [IHs IHc].
    change (run_events cl (ev :: evs) w)
      with (run_events cl evs (run (onmessage cl ev.1 ev.2) w)).
    rewrite IHs, IHc, Hs, Hcur. split; [|reflexivity].
    by rewrite <- app_assoc.
Qed.

Lemma cursor_never_decreases cl c evs bufs w k :
  Forall2 (chunk_of decodeBase64 decodeAudioData c) evs bufs ->
  (cursor (run_events cl (take k evs) w) <= cursor (run_events cl (take (S k) evs) w))%Q.
Proof.
  intros HF. destruct (evs !! k) as [ev|] eqn:Hk.
  - rewrite (take_S_r _ _ _ Hk), run_events_snoc.
    apply cursor_monotone.
    destruct (Forall2_lookup_l _ _ _ _ _ HF Hk) as (buf & _ & Hi & _). exact Hi.
  - apply lookup_ge_None in Hk. rewrite !take_ge by lia. apply Qle_refl.
Qed.

Lemma scenario_starts (c0 t1 d1 t2 d2 : Q) :
  (c0 == 0)%Q ->
  same_timeline [(t1, d1); (t2, d2)] [(0, 1); (1 # 100, 1 # 2)]%Q ->
  exists s1 s2, spec_schedule c0 [(t1, d1); (t2, d2)] = [s1; s2]
                /\ (s1 == 0)%Q /\ (s2 == 1)%Q.
Proof.
  intros H0 HT.
  apply Forall2_cons_1 in HT as [[Ht1 Hd1] HT].
  apply Forall2_cons_1 in HT as [[Ht2 Hd2] _]. simpl in *.
  assert (Hs1 : (Math_max c0 t1 == 0)%Q).
  { unfold Math_max. destruct (Qle_bool c0 t1); assumption. }
  eexists _, _. split; [reflexivity|]. split; [exact Hs1|].
  assert (Hsum : (Math_max c0 t1 + d1 == 1)%Q) by (rewrite Hs1, Hd1; reflexivity).
  unfold Math_max at 1. destruct (Qle_bool _ t2) eqn:E; [|exact Hsum].
  apply Qle_bool_iff in E. rewrite Hsum, Ht2 in E. unfold Qle in E. simpl in E. lia.
Qed.

(** A message without audio is handled without error. *)
Lemma no_audio_completes cl env msg w :
  truthy (inlineData msg) = None -> interrupted msg = false ->
  completes (onmessage cl env msg) w.
Proof.
  intros Ha Hi. exists tt. rewrite onmessage_eq. cbv zeta.
  unfold decoded. by rewrite Ha, Hi.
Qed.

(** *** The claims *)


(** C3: over a run of decodable audio chunks without interruption, each
    chunk starts at the later of the cursor and the output clock and the
    cursor then advances by the chunk's duration; the cursor never
    decreases; with the cursor at 0, chunks of 1.0 s and 0.5 s arriving at
    clock 0 and 0.01 start at 0 and 1.0. *)
Theorem chunks_are_scheduled_back_to_back cl c n evs bufs w :
  audioContextsRef (refs w) = Some c -> audioNodesRef (refs w) = Some n ->
  Forall2 (chunk_of decodeBase64 decodeAudioData c) evs bufs ->
  start_times (run_events cl evs w)
    = start_times w ++ spec_schedule (cursor w) (timeline evs bufs)
  /\ cursor (run_events cl evs w) = spec_cursor (cursor w) (timeline evs bufs)
  /\ (forall k, (cursor (run_events cl (take k evs) w)
                 <= cursor (run_events cl (take (S k) evs) w))%Q)
  /\ ((cursor w == 0)%Q ->
      same_timeline (timeline evs bufs) [(0, 1); (1 # 100, 1 # 2)]%Q ->
      exists s1 s2, start_times (run_events cl evs w) = start_times w ++ [s1; s2]
                    /\ (s1 == 0)%Q /\ (s2 == 1)%Q).
Proof.
  intros Hc Hn HF.
  destruct (schedule_follows cl c n evs bufs w Hc Hn HF) as [Hs Hcur].
  split; [exact Hs|]. split; [exact Hcur|].
  split; [intros k; by eapply cursor_never_decreases|].
  intros H0 HT. rewrite Hs.
  destruct (timeline evs bufs) as [|[t1 d1] [|[t2 d2] [|x rest]]];
    try (exfalso; apply Forall2_length in HT; simpl in HT; lia).
  destruct (scenario_starts _ _ _ _ _ H0 HT) as (s1 & s2 & E & H1 & H2).
  exists s1, s2. by rewrite E.
Qed.


(** C5, as amended: one call of [stopVoiceSession] runs to its end, closes
    and drops the session handle it holds, stops every active source,
    empties the set, resets the cursor, and leaves the state disconnected
    and idle; the captured media streams are left as they were. *)
Theorem stop_closes_session_and_silences_playback w :
  let after := run stopVoiceSession w in
  completes stopVoiceSession w
  /\ sessionRef (refs after) = None
  /\ calls (browser after)
       = calls (browser w)
         ++ match sessionRef (refs w) with Some s => [session_close s] | None => [] end
         ++ List.map source_stop (active w)
  /\ active after = []
  /\ cursor after = 0%Q
  /\ isConnected (react after) = false
  /\ isConnecting (react after) = false
  /\ status (react after) = idle
  /\ streams (browser after) = streams (browser w).
Proof.
  unfold completes, run. rewrite stopVoiceSession_eq. cbn [fst snd].
  split; [by exists tt|]. split; [apply torn_down_sessionRef|].
  pose (w1 := match sessionRef (refs w) with
              | Some s => with_refs (upd_sessionRef None)
                            (with_browser (upd_calls (fun c => c ++ [session_close s])) w)
              | None => w
              end).
  assert (Hb : browser (torn_down w) = browser (silenced w1)) by reflexivity.
  assert (Hact : active (torn_down w) = active (silenced w1)) by reflexivity.
  assert (Hcur : cursor (torn_down w) = cursor (silenced w1)) by reflexivity.
  assert (Ha : active w1 = active w) by (subst w1; by destruct (sessionRef (refs w))).
  rewrite Hb, Hact, Hcur, silenced_calls, silenced_streams, Ha, active_silenced, silenced_cursor.
  split.
  { subst w1. destruct (sessionRef (refs w)); simpl; by rewrite <- ?app_assoc. }
  do 5 (split; [reflexivity|]).
  subst w1. by destruct (sessionRef (refs w)).
Qed.

(** C6: [startVoiceSession] called while the component is connecting or
    connected returns at once: no object is created, no call is made and
    the world is unchanged. *)
Theorem start_is_noop_while_active w :
  isConnecting (react w) || isConnected (react w) = true ->
  startVoiceSession w = (Normal None, w).
Proof.
  intros H. unfold startVoiceSession, bind, gets. by rewrite H.
Qed.

(** C7: stopping twice leaves the same world as stopping once, from any
    world, and stopping a freshly mounted component changes nothing. *)
Theorem stop_is_idempotent w :
  run stopVoiceSession (run stopVoiceSession w) = run stopVoiceSession w
  /\ run stopVoiceSession initial = initial.
Proof.
  unfold run. rewrite !stopVoiceSession_eq. cbn [snd].
  split; [apply torn_down_idem | reflexivity].
Qed.

(** At turn completion the two entries carry the text the closure captured
    when the session was started, and both buffers are emptied. *)
Lemma turn_complete_appends cl env msg w :
  turnComplete msg = true ->
  let after := run (onmessage cl env msg) w in
  transcriptions (react after) = transcriptions (react w) ++ turn_entries cl env
  /\ currentInput (react after) = ""
  /\ currentOutput (react after) = "".
Proof.
  intros Ht after. subst after. unfold run. rewrite onmessage_eq. cbv zeta.
  set (w1 := with_react _ w).
  assert (H1 : transcriptions (react w1) = transcriptions (react w) ++ turn_entries cl env
               /\ currentInput (react w1) = "" /\ currentOutput (react w1) = "").
  { subst w1. unfold text_update, turn_update. rewrite Ht. simpl.
    destruct (outputTranscription msg), (inputTranscription msg); auto. }
  assert (H2 : forall d, react (scheduled env d w1) = react w1).
  { intros d. unfold scheduled.
    destruct d as [[buf|e]|], (audioNodesRef (refs w1)); reflexivity. }
  destruct (decoded decodeBase64 decodeAudioData msg w1) as [[buf|e]|];
    destruct (interrupted msg); cbn [snd]; rewrite ?silenced_react, H2; exact H1.
Qed.

(** *** Deliveries that overlap at the [await] *)

Lemma onmessage_phases cl env msg w :
  onmessage cl env msg w
  = bind (onmessage_arrival decodeBase64 decodeAudioData cl env msg)
         (onmessage_resumed stop_raises msg) w.
Proof.
  unfold Voice.onmessage, onmessage_arrival, onmessage_resumed.
  unfold bind, gets, modify, ret, lift, setCurrentOutput, setCurrentInput, setStatus,
    setTranscriptions, call, new_object.
  destruct w as [r rf br].
  destruct (outputTranscription msg) as [to|], (inputTranscription msg) as [ti|],
    (turnComplete msg); simpl;
  destruct (truthy (inlineData msg)) as [b|], (audioContextsRef rf) as [c|],
    (audioNodesRef rf) as [n|]; simpl;
  try (destruct (decodeBase64 b) as [bytes|e]; simpl;
       [destruct (decodeAudioData bytes (output c) 24000%positive 1%positive) as [buf|e]; simpl|]);
  reflexivity.
Qed.

Lemma arrival_cursor_le cl env msg w :
  (cursor w <= cursor (run (onmessage_arrival decodeBase64 decodeAudioData cl env msg) w))%Q.
Proof.
  unfold run, onmessage_arrival.
  unfold bind, gets, modify, ret, lift, setCurrentOutput, setCurrentInput, setStatus,
    setTranscriptions, cursor.
  destruct w as [r rf br].
  destruct (outputTranscription msg) as [to|], (inputTranscription msg) as [ti|],
    (turnComplete msg); simpl;
  destruct (truthy (inlineData msg)) as [b|], (audioContextsRef rf) as [c|],
    (audioNodesRef rf) as [n|]; simpl; try apply Qle_refl;
  destruct (decodeBase64 b) as [bytes|e]; simpl; apply Math_max_l.
Qed.

Lemma resumed_cursor_le msg d w :
  interrupted msg = false ->
  (cursor w <= cursor (run (onmessage_resumed stop_raises msg d) w))%Q.
Proof.
  intros Hi. unfold run, onmessage_resumed. rewrite Hi.
  unfold bind, gets, modify, ret, lift, call, new_object, set_add, cursor.
  destruct d as [[[buf|e] n]|]; simpl; try apply Qle_refl.
  rewrite <- (Qplus_0_r (nextStartTimeRef (refs w))) at 1.
  apply Qplus_le_r, duration_nonneg.
Qed.

End VoiceProofs.

(** *** Concrete runs *)

Section VoiceRuns.
Import Voice.

Local Abbreviation demo_onmessage stop :=
  (onmessage stop Demo.decodeBase64 Demo.decodeAudioData Demo.first_closure).

(** C1: on the first turn of a fresh component the user says "hello" and the
    model answers "hi"; both fragments reach the pending buffers, yet the
    two entries appended at turn completion carry the empty strings that
    [currentInput] and [currentOutput] held in the render that started the
    session.  The order (user, model) and the emptied buffers are as
    claimed; the entry text is not. *)
Theorem turn_complete_logs_text_captured_at_start :
  currentInput (react Demo.mid_turn) = "hello"
  /\ currentOutput (react Demo.mid_turn) = "hi"
  /\ transcriptions (react Demo.mid_turn) = []
  /\ transcriptions (react Demo.turn_finished)
     = [ {| id := "1700000000900-in"; role := user; text := "";
            timestamp := 1700000000900 |};
         {| id := "1700000000900-out"; role := model; text := "";
            timestamp := 1700000000900 |} ]
  /\ currentInput (react Demo.turn_finished) = ""
  /\ currentOutput (react Demo.turn_finished) = "".
Proof. vm_compute. repeat split. Qed.

(** The closure handed to the callbacks is a snapshot of the buffers at the
    moment [startVoiceSession] is called. *)
Lemma closure_is_snapshot w cl w' :
  startVoiceSession w = (Normal (Some cl), w') ->
  cl_currentInput cl = currentInput (react w)
  /\ cl_currentOutput cl = currentOutput (react w).
Proof.
  unfold startVoiceSession, bind, gets.
  destruct (isConnecting (react w) || isConnected (react w)); [discriminate|].
  simpl. intros H. injection H as <- _. by split.
Qed.


(** Two buffers in flight, every [stop()] raising: both handles are stopped
    all the same. *)
Example interruption_with_two_buffers_in_flight :
  active Demo.playing = [6; 7]
  /\ calls (browser (run (demo_onmessage Demo.stop_throws Demo.interrupted_at Demo.barge_in)
                         Demo.playing))
     = calls (browser Demo.playing) ++ [source_stop 6; source_stop 7].
Proof. vm_compute. split; reflexivity. Qed.

Lemma chunks_are_scheduled_back_to_back_witness :
  audioContextsRef (refs Demo.mid_turn) = Some {| input := 0; output := 1 |}
  /\ audioNodesRef (refs Demo.mid_turn)
     = Some {| inputNode := 3; outputNode := 4; analyzer := 2; sources := 0 |}
  /\ Forall2 (chunk_of Demo.decodeBase64 Demo.decodeAudioData {| input := 0; output := 1 |})
             Demo.two_chunks Demo.two_buffers
  /\ exists s1 s2,
       start_times (run_events Demo.stop_fine Demo.decodeBase64 Demo.decodeAudioData
                               Demo.first_closure Demo.two_chunks Demo.mid_turn)
         = start_times Demo.mid_turn ++ [s1; s2]
       /\ (s1 == 0)%Q /\ (s2 == 1)%Q.
Proof.
  assert (HF : Forall2 (chunk_of Demo.decodeBase64 Demo.decodeAudioData
                          {| input := 0; output := 1 |})
                       Demo.two_chunks Demo.two_buffers).
  { repeat constructor; eexists _, _; repeat split; reflexivity. }
  split; [reflexivity|]. split; [reflexivity|]. split; [exact HF|].
  apply (chunks_are_scheduled_back_to_back Demo.stop_fine Demo.decodeBase64
           Demo.decodeAudioData Demo.first_closure {| input := 0; output := 1 |}
           {| inputNode := 3; outputNode := 4; analyzer := 2; sources := 0 |}
           Demo.two_chunks Demo.two_buffers Demo.mid_turn eq_refl eq_refl HF).
  - reflexivity.
  - repeat constructor; reflexivity.
Defined.



(** The claim of C5 fails: after [stopVoiceSession] on an open session the
    stream obtained from [getUserMedia] still has live tracks. *)
Lemma stop_leaves_microphone_open :
  streams (browser Demo.playing) = [{| stream_id := 5; tracks_live := true |}]
  /\ ~ microphone_released (run (stopVoiceSession Demo.stop_fine) Demo.playing).
Proof.
  split; [reflexivity|]. intros H.
  apply Forall_inv in H. vm_compute in H. discriminate H.
Qed.

Lemma start_is_noop_while_active_witness :
  isConnecting (react Demo.playing) || isConnected (react Demo.playing) = true
  /\ startVoiceSession Demo.playing = (Normal None, Demo.playing).
Proof.
  split; [reflexivity|]. apply start_is_noop_while_active. reflexivity.
Defined.

End VoiceRuns.

(** * Properties of the persistence service and of the save effect *)

Section PersistenceProofs.
Import Persistence.

Variable JSON_stringify : AppData -> string.
Variable fetch : Request -> FetchResult.

(** C9: [save] first stores the serialized document under the local key and
    only then issues the PUT; whatever the remote store answers, the local
    cache holds the document afterwards, and the boolean returned is the
    response's [ok], or [false] when the request threw. *)
Theorem save_caches_before_remote_write data s :
  let result := (save JSON_stringify fetch data s).1 in
  let s' := (save JSON_stringify fetch data s).2 in
  getItem LOCAL_STORAGE_KEY s' = Some (JSON_stringify data)
  /\ trace s' = trace s ++ [SetItem LOCAL_STORAGE_KEY (JSON_stringify data);
                            Fetch (put_request JSON_stringify data)]
  /\ result = match fetch (put_request JSON_stringify data) with
              | Response ok _ => ok
              | NetworkError => false
              end.
Proof.
  unfold save.
  destruct (fetch (put_request JSON_stringify data)) as [ok payload|]; cbn [fst snd];
    (split; [unfold getItem, issue, setItem; cbn; apply lookup_insert_eq|]);
    (split; [unfold issue, setItem; cbn; by rewrite <- app_assoc | reflexivity]).
Qed.

End PersistenceProofs.

Section SyncProofs.
Import Persistence Sync.

Variable JSON_stringify : AppData -> string.
Variable fetch : Request -> FetchResult.
Variable trim : string -> string.
Variable today : string.

Local Abbreviation step := (step JSON_stringify fetch trim today).
Local Abbreviation run_events := (run_events JSON_stringify fetch trim today).
Local Abbreviation setData := (setData JSON_stringify).

Lemma skip_when_three_empty d last :
  three_empty d -> skip_save JSON_stringify d last = true.
Proof.
  intros (Hr & Hs & Hn). unfold skip_save. rewrite Hr, Hs, Hn. simpl.
  apply orb_true_r.
Qed.

Lemma setData_three_empty d st :
  three_empty d ->
  setData d st = {| data := d; lastSavedData := lastSavedData st; timer := None;
                    syncStatus := syncStatus st; saves := saves st; store := store st |}.
Proof.
  intros H. unfold Sync.setData, save_effect. cbn [data lastSavedData].
  by rewrite skip_when_three_empty.
Qed.

Lemma filter_index_nil {A} keep i : @filter_index A keep i [] = [].
Proof. reflexivity. Qed.

Lemma remove_keeps_three_empty category index d :
  three_empty d -> three_empty (handleRemoveItem category index d).
Proof.
  intros (Hr & Hs & Hn). unfold three_empty, handleRemoveItem.
  destruct category; cbn; rewrite ?Hr, ?Hs, ?Hn; auto.
Qed.

Lemma confined_add_keeps_three_empty showForm form d d' :
  confined (Add showForm form) = true ->
  handleAddItem trim today showForm form d = Some d' ->
  three_empty d -> three_empty d'.
Proof.
  unfold confined, handleAddItem, three_empty.
  intros Hc Hadd (Hr & Hs & Hn).
  apply negb_true_iff in Hc.
  apply orb_false_iff in Hc as [Hc Hno]. apply orb_false_iff in Hc as [Hc Hst].
  apply orb_false_iff in Hc as [Hh Hro].
  rewrite Hh, Hro, Hst, Hno in Hadd. cbn [orb] in Hadd.
  destruct (is_type showForm "faculty"); [by injection Hadd as <-|].
  destruct (is_type showForm "academic"); [by injection Hadd as <-|].
  destruct (is_type showForm "polls").
  - destruct (form "options"); [by injection Hadd as <-|discriminate].
  - by injection Hadd as <-.
Qed.

(** Once the three collections are empty and no save is pending, confined
    events never reach the persistence service. *)
Lemma quiescent events : forall st,
  three_empty (data st) -> timer st = None ->
  Forall (fun e => confined e = true) events ->
  let st' := run_events events st in
  three_empty (data st') /\ timer st' = None
  /\ saves st' = saves st /\ store st' = store st.
Proof.
  induction events as [|e events IH]; intros st He Ht HF; [by cbn|].
  apply Forall_cons_1 in HF as [Hc HF].
  change (run_events (e :: events) st) with (run_events events (step st e)).
  assert (Hstep : three_empty (data (step st e)) /\ timer (step st e) = None
                  /\ saves (step st e) = saves st /\ store (step st e) = store st).
  { destruct e as [showForm form|category index|]; cbn [Sync.step].
    - destruct (handleAddItem trim today showForm form (data st)) as [d'|] eqn:Hadd; [|done].
      rewrite setData_three_empty by (by eapply confined_add_keeps_three_empty).
      cbn. split; [by eapply confined_add_keeps_three_empty|done].
    - rewrite setData_three_empty by (by apply remove_keeps_three_empty).
      cbn. split; [by apply remove_keeps_three_empty|done].
    - unfold timer_fired. by rewrite Ht. }
  destruct Hstep as (He' & Ht' & Hs' & Hst').
  destruct (IH _ He' Ht' HF) as (H1 & H2 & H3 & H4).
  cbv zeta. rewrite H3, H4, Hs', Hst'. done.
Qed.

(** C10: when [data] changes to a value whose routine, students and
    notices are all empty, the effect schedules no save and cancels the one
    pending; as long as later changes stay within faculty, polls, courses
    and attendance, or are deletions, [persistence.save] is not called and
    neither the local cache nor the remote store is written. *)
Theorem empty_core_collections_are_never_saved st d events :
  three_empty d ->
  Forall (fun e => confined e = true) events ->
  let st' := run_events events (setData d st) in
  timer (setData d st) = None
  /\ timer_fired JSON_stringify fetch (setData d st) = setData d st
  /\ saves st' = saves st
  /\ store st' = store st.
Proof.
  intros Hd HF st'. subst st'.
  assert (Ht : timer (setData d st) = None) by (by rewrite setData_three_empty).
  split; [exact Ht|]. split; [unfold timer_fired; by rewrite Ht|].
  destruct (quiescent events (setData d st)) as (_ & _ & H3 & H4);
    [by rewrite setData_three_empty | exact Ht | exact HF |].
  rewrite H3, H4. by rewrite setData_three_empty.
Qed.

End SyncProofs.

Section SyncRuns.
Import Persistence Sync.

(** The last routine entry is deleted while its save is pending, a faculty
    member is added, and timeouts pass: nothing is ever saved. *)
Lemma empty_core_collections_are_never_saved_witness :
  timer Demo.pending = Some (Demo.one_lecture, Demo.stringify Demo.one_lecture)
  /\ three_empty Demo.cleared
  /\ Forall (fun e => confined e = true) Demo.later
  /\ timer (setData Demo.stringify Demo.cleared Demo.pending) = None
  /\ timer_fired Demo.stringify Demo.online (setData Demo.stringify Demo.cleared Demo.pending)
     = setData Demo.stringify Demo.cleared Demo.pending
  /\ saves (run_events Demo.stringify Demo.online Demo.no_trim "11/2/2026" Demo.later
                       (setData Demo.stringify Demo.cleared Demo.pending))
     = saves Demo.pending
  /\ store (run_events Demo.stringify Demo.online Demo.no_trim "11/2/2026" Demo.later
                       (setData Demo.stringify Demo.cleared Demo.pending))
     = store Demo.pending.
Proof.
  assert (Hd : three_empty Demo.cleared) by (repeat split).
  assert (HF : Forall (fun e => confined e = true) Demo.later) by (repeat constructor).
  split; [reflexivity|]. split; [exact Hd|]. split; [exact HF|].
  exact (empty_core_collections_are_never_saved Demo.stringify Demo.online Demo.no_trim
           "11/2/2026" Demo.pending Demo.cleared Demo.later Hd HF).
Defined.

(** With a routine entry present the same faculty addition is saved. *)
Example faculty_is_saved_next_to_a_lecture :
  saves (run_events Demo.stringify Demo.online Demo.no_trim "11/2/2026"
           [Add (Some "faculty") Demo.faculty_form; Elapsed] Demo.pending)
  = [set k_faculty [JObj [("name", JStr "Dr. Rahman"); ("post", JStr "Professor");
                          ("phone", JNull)]] Demo.one_lecture].
Proof. reflexivity. Qed.

End SyncRuns.

(** * Further properties of the record collections *)

Section CollectionProofs.
Import Persistence Sync.

Variable trim : string -> string.
Variable today : string.

Lemma filter_index_all {A} (keep : nat -> bool) (l : list A) : forall k,
  (forall j, k <= j -> keep j = true) -> filter_index keep k l = l.
Proof.
  induction l as [|x l IH]; intros k Hk; [reflexivity|]. cbn.
  rewrite (Hk k) by lia. f_equal. apply IH. intros j Hj. apply Hk. lia.
Qed.

Lemma filter_index_skip {A} (l : list A) : forall k i,
  filter_index (fun j => negb (Nat.eqb j (k + i))) k l = take i l ++ drop (S i) l.
Proof.
  induction l as [|x l IH]; intros k i; [by destruct i|].
  destruct i as [|i]; cbn [filter_index].
  - rewrite Nat.add_0_r, Nat.eqb_refl. cbn. apply filter_index_all.
    intros j Hj. apply negb_true_iff, Nat.eqb_neq. lia.
  - replace (Nat.eqb k (k + S i)) with false by (symmetry; apply Nat.eqb_neq; lia).
    cbn. f_equal. replace (k + S i) with (S k + i) by lia. apply IH.
Qed.

Lemma get_set_same c v d : get c (set c v d) = v.
Proof. by destruct c. Qed.

Lemma get_set_other c c' v d : c' <> c -> get c' (set c v d) = get c' d.
Proof. by destruct c, c'. Qed.

Lemma set_get c d : set c (get c d) d = d.
Proof. by destruct c, d. Qed.

(** [handleRemoveItem] takes out the record at [index] of the named
    collection, keeps the others of that collection in order, and leaves
    every other collection alone. *)
Theorem remove_item_removes_exactly_one category index d other :
  get other (handleRemoveItem category index d)
  = if decide (other = category)
    then take index (get category d) ++ drop (S index) (get category d)
    else get other d.
Proof.
  unfold handleRemoveItem. destruct (decide (other = category)) as [->|Ho].
  - rewrite get_set_same. apply (filter_index_skip _ 0 index).
  - by apply get_set_other.
Qed.

(** With an index past the end of the collection, [handleRemoveItem]
    hands the same data to [setData]. *)
Theorem remove_item_out_of_range category index d :
  length (get category d) <= index ->
  handleRemoveItem category index d = d.
Proof.
  intros Hlen. unfold handleRemoveItem.
  rewrite (filter_index_skip _ 0 index), take_ge, drop_ge, app_nil_r by lia.
  apply set_get.
Qed.

(** The delete button next to the [i]-th notice on screen (notices are
    shown newest first) removes that notice from the screen and keeps
    the others in place. *)
Theorem displayed_notice_is_the_one_removed i d :
  i < length (notices d) ->
  displayed_notices (remove_displayed_notice i d)
    = take i (displayed_notices d) ++ drop (S i) (displayed_notices d).
Proof.
  intros Hi. unfold displayed_notices, remove_displayed_notice.
  change (notices (handleRemoveItem k_notices (length (notices d) - 1 - i) d))
    with (filter_index (fun j => negb (Nat.eqb j (0 + (length (notices d) - 1 - i))))
            0 (notices d)).
  rewrite filter_index_skip, reverse_app, reverse_drop, reverse_take.
  f_equal; f_equal; lia.
Qed.

(** [handleAddItem] never drops or reorders a record: each collection
    of the old data is a prefix of the new one, and the number of records
    grows by one for the seven forms it knows and by none otherwise. *)
Theorem add_item_appends_one_record showForm form d d' :
  handleAddItem trim today showForm form d = Some d' ->
  (forall c, get c d `prefix_of` get c d')
  /\ records d' = records d + (if known_form showForm then 1 else 0).
Proof.
  unfold handleAddItem, known_form.
  destruct (is_type showForm "home"), (is_type showForm "routine"),
    (is_type showForm "students"), (is_type showForm "faculty"),
    (is_type showForm "notices"), (is_type showForm "academic"),
    (is_type showForm "polls"); cbn [orb];
    try destruct (form "options");
    intros H; try discriminate H; injection H as <-;
    (split;
     [ intros c; destruct c; cbn; try reflexivity; by apply prefix_app_r
     | unfold records; cbn; rewrite ?length_app; cbn; lia ]).
Qed.

Lemma split_on_length sep s : forall acc,
  length (split_on sep acc s) = S (count_char sep s).
Proof.
  induction s as [|x s IH]; intros acc; [reflexivity|]. cbn.
  destruct (Ascii.eqb x sep); cbn; by rewrite IH.
Qed.

(** A poll gets one option per comma-separated piece of the options
    field, empty pieces included, each with zero votes. *)
Theorem new_poll_has_one_option_per_piece form d options :
  form "options" = Some options ->
  exists opts,
    handleAddItem trim today (Some "polls") form d
      = Some (set k_polls (polls d ++
                [JObj [("question", form_get form "question"); ("options", JArr opts)]]) d)
    /\ length opts = S (count_char (Ascii.ascii_of_nat 44) options)
    /\ Forall (fun o => exists text, o = fresh_option text) opts.
Proof.
  intros Ho. eexists. split; [|split].
  - unfold handleAddItem. cbn. rewrite Ho. reflexivity.
  - rewrite length_map. apply split_on_length.
  - apply Forall_forall. intros o Hin. apply list_elem_of_In, in_map_iff in Hin.
    destruct Hin as (piece & <- & _). by eexists.
Qed.

End CollectionProofs.

(** * Further properties of the persistence service and the save effect *)

Section StorageProofs.
Import Persistence Sync.

Variable JSON_stringify : AppData -> string.
Variable JSON_parse : string -> Completion AppData.
Variable response_record : string -> Completion AppData.
Variable trim : string -> string.
Variable today : string.

Local Abbreviation load := (load JSON_stringify JSON_parse response_record).
Local Abbreviation save := (save JSON_stringify).
Local Abbreviation setData := (setData JSON_stringify).
Local Abbreviation loadInitialData :=
  (loadInitialData JSON_stringify JSON_parse response_record).

Lemma load_falls_back fetch s :
  (forall payload, fetch get_request <> Response true payload) ->
  load fetch s = (load_local JSON_parse (issue get_request s), issue get_request s).
Proof.
  intros Hf. unfold Persistence.load.
  destruct (fetch get_request) as [[|] payload|]; try reflexivity.
  by destruct (Hf payload).
Qed.

Lemma load_local_reads text d s :
  getItem LOCAL_STORAGE_KEY s = Some text -> text <> "" -> JSON_parse text = Normal d ->
  load_local JSON_parse s = Normal (Some d).
Proof.
  intros Hg Hne Hp. unfold load_local. rewrite Hg.
  apply String.eqb_neq in Hne. by rewrite Hne, Hp.
Qed.

Lemma getItem_issue r s : getItem LOCAL_STORAGE_KEY (issue r s) = getItem LOCAL_STORAGE_KEY s.
Proof. reflexivity. Qed.

Lemma getItem_after_save fetch data s :
  getItem LOCAL_STORAGE_KEY (save fetch data s).2 = Some (JSON_stringify data).
Proof.
  unfold Persistence.save. destruct (fetch _); cbn; apply lookup_insert_eq.
Qed.

(** A document handed to [save] is what [load] returns while the remote
    store cannot be read, whether or not the remote write went through:
    the cache carries it. *)
Theorem saved_document_survives_offline fetch data s :
  JSON_parse (JSON_stringify data) = Normal data ->
  JSON_stringify data <> "" ->
  (forall payload, fetch get_request <> Response true payload) ->
  (load fetch (save fetch data s).2).1 = Normal (Some data).
Proof.
  intros Hp Hne Hf. rewrite load_falls_back by exact Hf. cbn [fst].
  eapply load_local_reads; [|exact Hne|exact Hp].
  rewrite getItem_issue. apply getItem_after_save.
Qed.

(** A record read from the remote store replaces the cache: [load]
    returns it, and a later [load] without the remote store returns it
    again. *)
Theorem loaded_record_is_cached online offline s payload r :
  online get_request = Response true payload ->
  response_record payload = Normal r ->
  JSON_parse (JSON_stringify r) = Normal r ->
  JSON_stringify r <> "" ->
  (forall p, offline get_request <> Response true p) ->
  (load online s).1 = Normal (Some r)
  /\ (load offline (load online s).2).1 = Normal (Some r).
Proof.
  intros Ho Hr Hp Hne Hoff.
  assert (H1 : load online s
               = (Normal (Some r),
                  setItem LOCAL_STORAGE_KEY (JSON_stringify r) (issue get_request s))).
  { unfold Persistence.load. by rewrite Ho, Hr. }
  rewrite H1. split; [reflexivity|]. cbn [snd].
  rewrite load_falls_back by exact Hoff. cbn [fst].
  eapply load_local_reads; [|exact Hne|exact Hp].
  rewrite getItem_issue. apply lookup_insert_eq.
Qed.

(** *** The save effect *)

Lemma setData_keeps d st :
  saves (setData d st) = saves st /\ lastSavedData (setData d st) = lastSavedData st
  /\ store (setData d st) = store st /\ data (setData d st) = d
  /\ syncStatus (setData d st) = syncStatus st.
Proof. by repeat split. Qed.

Lemma changes_keep ds : forall st,
  saves (fold_left (fun s x => setData x s) ds st) = saves st
  /\ lastSavedData (fold_left (fun s x => setData x s) ds st) = lastSavedData st.
Proof.
  induction ds as [|d ds IH]; intros st; [done|]. cbn [fold_left].
  destruct (IH (setData d st)) as [H1 H2]. by rewrite H1, H2.
Qed.

(** Debouncing: however many changes happen before the timeout runs,
    one timeout makes at most one [persistence.save] call, for the last
    value of [data], and none if the guard of line 48 skips that value. *)
Theorem rapid_changes_save_only_the_last fetch st ds d :
  saves (timer_fired JSON_stringify fetch
           (fold_left (fun s x => setData x s) (ds ++ [d]) st))
  = saves st ++ (if skip_save JSON_stringify d (lastSavedData st) then [] else [d]).
Proof.
  rewrite fold_left_app. cbn [fold_left].
  destruct (changes_keep ds st) as [Hs Hl].
  set (st0 := fold_left _ ds st) in *.
  unfold timer_fired, Sync.setData, save_effect. cbn [timer data lastSavedData saves store].
  rewrite Hl. destruct (skip_save JSON_stringify d (lastSavedData st)).
  - cbn. by rewrite app_nil_r, Hs.
  - destruct (save fetch d (store st0)) as [ok store']. cbn. by rewrite Hs.
Qed.

Lemma skip_false_not_empty d last :
  skip_save JSON_stringify d last = false -> ~ three_empty d.
Proof.
  intros Hs (Hr & Hst & Hn). unfold skip_save in Hs.
  rewrite Hr, Hst, Hn in Hs. cbn in Hs. by rewrite orb_true_r in Hs.
Qed.

Lemma setData_timer_current d st : timer_current JSON_stringify (setData d st).
Proof.
  unfold timer_current, Sync.setData, save_effect. cbn [timer data lastSavedData].
  destruct (skip_save JSON_stringify d (lastSavedData st)) eqn:Hs; [done|].
  repeat split. by eapply skip_false_not_empty.
Qed.

Lemma step_keeps_invariant fetch st e :
  timer_current JSON_stringify st ->
  Forall (fun d => ~ three_empty d) (saves st) ->
  timer_current JSON_stringify (step JSON_stringify fetch trim today st e)
  /\ Forall (fun d => ~ three_empty d) (saves (step JSON_stringify fetch trim today st e)).
Proof.
  intros Ht Hs. destruct e as [showForm form|category index|]; cbn [step].
  - destruct (handleAddItem trim today showForm form (data st)); [|done].
    split; [apply setData_timer_current|exact Hs].
  - split; [apply setData_timer_current|exact Hs].
  - unfold timer_fired. destruct (timer st) as [[d str]|] eqn:Et; [|by split].
    unfold timer_current in Ht. rewrite Et in Ht. destruct Ht as (_ & _ & Hne).
    destruct (save fetch d (store st)) as [ok store']. unfold timer_current. cbn.
    split; [done|]. apply Forall_app. split; [exact Hs|]. by constructor.
Qed.

(** Whatever is added, removed or timed out, every document handed to
    [persistence.save] has a routine entry, a student or a notice: the
    effect never writes a document in which all three are empty. *)
Theorem saved_documents_are_never_empty fetch events st :
  timer_current JSON_stringify st ->
  Forall (fun d => ~ three_empty d) (saves st) ->
  Forall (fun d => ~ three_empty d)
         (saves (Sync.run_events JSON_stringify fetch trim today events st)).
Proof.
  revert st. induction events as [|e events IH]; intros st Ht Hs; [exact Hs|].
  destruct (step_keeps_invariant fetch st e Ht Hs) as [Ht' Hs'].
  exact (IH _ Ht' Hs').
Qed.

(** When the remote write fails, the status becomes [error], the local
    cache nevertheless holds the document, [lastSavedData] keeps its old
    value, and no later timeout tries again: the save is repeated only
    after [data] changes. *)
Theorem failed_save_is_not_retried fetch st d str :
  timer st = Some (d, str) ->
  (forall payload, fetch (put_request JSON_stringify d) <> Response true payload) ->
  let st' := timer_fired JSON_stringify fetch st in
  syncStatus st' = error
  /\ lastSavedData st' = lastSavedData st
  /\ getItem LOCAL_STORAGE_KEY (store st') = Some (JSON_stringify d)
  /\ saves st' = saves st ++ [d]
  /\ timer_fired JSON_stringify fetch st' = st'.
Proof.
  intros Ht Hf st'. subst st'.
  assert (E : timer_fired JSON_stringify fetch st
              = {| data := data st; lastSavedData := lastSavedData st; timer := None;
                   syncStatus := error; saves := saves st ++ [d];
                   store := (save fetch d (store st)).2 |}).
  { unfold timer_fired. rewrite Ht. unfold Persistence.save.
    destruct (fetch (put_request JSON_stringify d)) as [[|] payload|];
      [by destruct (Hf payload)|reflexivity|reflexivity]. }
  rewrite E. cbn [syncStatus lastSavedData store saves].
  repeat split. apply getItem_after_save.
Qed.

(** After a successful save, a change to data that serializes to the
    same text schedules nothing. *)
Theorem saved_data_is_not_saved_again fetch st d payload d' :
  timer st = Some (d, JSON_stringify d) ->
  fetch (put_request JSON_stringify d) = Response true payload ->
  JSON_stringify d' = JSON_stringify d ->
  let st' := timer_fired JSON_stringify fetch st in
  syncStatus st' = synced
  /\ lastSavedData st' = JSON_stringify d
  /\ timer (setData d' st') = None.
Proof.
  intros Ht Hf Hd st'. subst st'. unfold timer_fired. rewrite Ht.
  unfold Persistence.save. rewrite Hf. cbn. repeat split.
  unfold skip_save. by rewrite Hd, String.eqb_refl.
Qed.

(** *** The initial load *)

(** A document read from the remote store at start-up is shown, cached,
    and, unless the guard of line 48 skips it, written back to the remote
    store by the next timeout. *)
Theorem loaded_document_is_saved_back fetch st payload r :
  fetch get_request = Response true payload ->
  response_record payload = Normal r ->
  skip_save JSON_stringify r (lastSavedData st) = false ->
  let st1 := (loadInitialData fetch st).2 in
  (loadInitialData fetch st).1 = Normal tt
  /\ data st1 = r
  /\ syncStatus st1 = synced
  /\ getItem LOCAL_STORAGE_KEY (store st1) = Some (JSON_stringify r)
  /\ saves (timer_fired JSON_stringify fetch st1) = saves st ++ [r].
Proof.
  intros Hf Hr Hs.
  assert (E : loadInitialData fetch st
              = (Normal tt,
                 with_syncStatus synced
                   (setData r
                      (with_store (setItem LOCAL_STORAGE_KEY (JSON_stringify r)
                                     (issue get_request (store st)))
                                  (with_syncStatus syncing st))))).
  { unfold Sync.loadInitialData, Persistence.load. cbn [store with_syncStatus].
    by rewrite Hf, Hr. }
  rewrite E. cbn [fst snd]. do 3 (split; [reflexivity|]).
  split; [apply lookup_insert_eq|].
  unfold timer_fired, with_syncStatus, Sync.setData, save_effect, with_store.
  cbn [timer data lastSavedData saves store syncStatus]. rewrite Hs.
  by destruct (save fetch r _).
Qed.

(** If the remote store cannot be read and the cache holds text that
    does not parse, [loadInitialData] throws: the status stays at
    [syncing] and the data on screen is untouched. *)
Theorem corrupt_cache_leaves_syncing fetch st text e :
  (forall payload, fetch get_request <> Response true payload) ->
  getItem LOCAL_STORAGE_KEY (store st) = Some text ->
  text <> "" ->
  JSON_parse text = Throw e ->
  (loadInitialData fetch st).1 = Throw e
  /\ syncStatus (loadInitialData fetch st).2 = syncing
  /\ data (loadInitialData fetch st).2 = data st
  /\ timer (loadInitialData fetch st).2 = timer st.
Proof.
  intros Hf Hg Hne Hp. unfold Sync.loadInitialData.
  rewrite load_falls_back by exact Hf.
  unfold load_local. cbn [store with_syncStatus]. rewrite getItem_issue, Hg.
  apply String.eqb_neq in Hne. rewrite Hne, Hp. by cbn.
Qed.

End StorageProofs.

(** * Further properties of the voice session pipeline *)

Section VoiceExtras.
Import Voice.

Variable stop_raises : World -> SourceNode -> bool.
Variable decodeBase64 : string -> Completion (list Byte.byte).
Variable decodeAudioData :
  list Byte.byte -> AudioContext -> positive -> positive -> Completion AudioBuffer.

Local Abbreviation stopVoiceSession := (stopVoiceSession stop_raises).
Local Abbreviation onmessage := (onmessage stop_raises decodeBase64 decodeAudioData).
Local Abbreviation run_events := (run_events stop_raises decodeBase64 decodeAudioData).
Local Abbreviation handle := (handle stop_raises decodeBase64 decodeAudioData).
Local Abbreviation handle_all := (handle_all stop_raises decodeBase64 decodeAudioData).
Local Abbreviation decoded := (decoded decodeBase64 decodeAudioData).

Lemma scheduled_react env d w : react (scheduled env d w) = react w.
Proof.
  unfold scheduled. destruct d as [[buf|e]|], (audioNodesRef (refs w)); reflexivity.
Qed.

(** The React state after a message, whatever happens to its audio. *)
Lemma onmessage_react cl env msg w :
  react (run (onmessage cl env msg) w) = turn_update cl env msg (text_update msg (react w)).
Proof.
  unfold run. rewrite (onmessage_eq stop_raises decodeBase64 decodeAudioData). cbv zeta.
  set (w1 := with_react _ w).
  destruct (decoded msg w1) as [[buf|e]|]; destruct (interrupted msg); cbn [snd];
    rewrite ?silenced_react, scheduled_react; reflexivity.
Qed.

Lemma str_app_nil_r (s : string) : s +:+ "" = s.
Proof.
  induction s as [|c s IH]; [reflexivity|].
  change (String c (s +:+ "") = String c s). by f_equal.
Qed.

Lemma str_app_assoc (a b c : string) : (a +:+ b) +:+ c = a +:+ (b +:+ c).
Proof.
  induction a as [|x a IH]; [reflexivity|].
  change (String x ((a +:+ b) +:+ c) = String x (a +:+ (b +:+ c))). by f_equal.
Qed.

Lemma run_events_cons cl ev evs w :
  run_events cl (ev :: evs) w = run_events cl evs (run (onmessage cl ev.1 ev.2) w).
Proof. reflexivity. Qed.

(** Over any run of inbound messages the transcript log only grows: each
    message with the turn-complete marker appends its user and model
    entry, in that order, and nothing else touches the log. *)
Theorem turns_extend_the_log cl evs : forall w,
  transcriptions (react (run_events cl evs w))
  = transcriptions (react w)
    ++ concat (List.map (fun ev => if turnComplete ev.2 then turn_entries cl ev.1 else [])
                        evs).
Proof.
  induction evs as [|ev evs IH]; intros w.
  - cbn. by rewrite app_nil_r.
  - rewrite run_events_cons, IH, onmessage_react. cbn [List.map concat].
    rewrite app_assoc. f_equal.
    unfold turn_update, text_update.
    destruct (turnComplete ev.2), (outputTranscription ev.2), (inputTranscription ev.2);
      cbn; by rewrite ?app_nil_r.
Qed.

(** Between two turn completions the pending buffers collect the
    fragments in arrival order; a message that carries both an output and
    an input fragment contributes only the output one. *)
Theorem fragments_accumulate cl evs : forall w,
  Forall (fun ev => turnComplete ev.2 = false) evs ->
  currentOutput (react (run_events cl evs w))
    = currentOutput (react w) +:+ glue (List.map (fun ev => out_fragment ev.2) evs)
  /\ currentInput (react (run_events cl evs w))
    = currentInput (react w) +:+ glue (List.map (fun ev => in_fragment ev.2) evs).
Proof.
  induction evs as [|ev evs IH]; intros w HF.
  - change (run_events cl [] w) with w. cbn [List.map glue fold_right].
    by rewrite !str_app_nil_r.
  - apply Forall_cons_1 in HF as [Ht HF].
    rewrite run_events_cons. destruct (IH (run (onmessage cl ev.1 ev.2) w) HF) as [Ho Hi].
    rewrite Ho, Hi, onmessage_react. cbn [List.map glue fold_right].
    rewrite <- !str_app_assoc.
    unfold turn_update, text_update, out_fragment, in_fragment. rewrite Ht.
    destruct (outputTranscription ev.2), (inputTranscription ev.2); cbn;
      by rewrite ?str_app_nil_r.
Qed.

(** When the audio of a message cannot be decoded the handler throws at
    line 130: the transcript part of the message has been applied and the
    cursor clamped, but nothing is scheduled, and the interruption marker
    of the same message is not acted upon. *)
Theorem undecodable_chunk_aborts_handler cl env msg w e :
  decoded msg w = Some (Throw e) ->
  (onmessage cl env msg w).1 = Throw e
  /\ calls (browser (run (onmessage cl env msg) w)) = calls (browser w)
  /\ sets (browser (run (onmessage cl env msg) w)) = sets (browser w)
  /\ cursor (run (onmessage cl env msg) w) = Math_max (cursor w) (currentTime env).
Proof.
  intros Hd. unfold run. rewrite (onmessage_eq stop_raises decodeBase64 decodeAudioData).
  cbv zeta. set (w1 := with_react _ w).
  change (decoded msg w1) with (decoded msg w). rewrite Hd.
  unfold scheduled. by destruct (audioNodesRef (refs w1)).
Qed.

Lemma interruption_cursor cl env msg w :
  interrupted msg = true -> completes (onmessage cl env (calm msg)) w ->
  cursor (run (onmessage cl env msg) w) = 0%Q.
Proof.
  intros Hi [a Ha]. unfold run.
  rewrite (onmessage_eq stop_raises decodeBase64 decodeAudioData) in Ha |- *.
  cbv zeta in *. rewrite Hi.
  change (text_update (calm msg)) with (text_update msg) in Ha.
  change (turn_update cl env (calm msg)) with (turn_update cl env msg) in Ha.
  rewrite (decoded_calm decodeBase64 decodeAudioData) in Ha.
  destruct (decoded msg _) as [[buf|e]|]; cbn [fst snd] in *; try discriminate Ha;
    apply silenced_cursor.
Qed.

(** The first chunk after an interruption starts at the output clock's
    current time, not where the interrupted audio would have ended. *)
Theorem chunk_after_interruption_starts_at_clock cl c n env msg ev buf w :
  interrupted msg = true ->
  completes (onmessage cl env (calm msg)) w ->
  audioContextsRef (refs w) = Some c ->
  audioNodesRef (refs w) = Some n ->
  chunk_of decodeBase64 decodeAudioData c ev buf ->
  (0 <= currentTime ev.1)%Q ->
  let w1 := run (onmessage cl env msg) w in
  let w2 := run (onmessage cl ev.1 ev.2) w1 in
  start_times w2 = start_times w1 ++ [currentTime ev.1]
  /\ cursor w2 = (currentTime ev.1 + duration buf)%Q.
Proof.
  intros Hi Hcomp Hc Hn Hev Hpos w1 w2. subst w1 w2.
  destruct (onmessage_keeps_audio_refs stop_raises decodeBase64 decodeAudioData
              cl env msg w) as [Hc' Hn'].
  rewrite Hc in Hc'. rewrite Hn in Hn'.
  destruct (chunk_step stop_raises decodeBase64 decodeAudioData cl c n ev buf _ Hc' Hn' Hev)
    as [Hs Hcur].
  rewrite Hs, Hcur, (interruption_cursor cl env msg w Hi Hcomp).
  assert (Hm : Math_max 0 (currentTime ev.1) = currentTime ev.1).
  { unfold Math_max. apply Qle_bool_iff in Hpos. by rewrite Hpos. }
  by rewrite Hm.
Qed.

(** *** The ['ended'] listener *)

Lemma onended_spec srcs source l w :
  sets (browser w) !! srcs = Some l ->
  let rest := List.filter (fun m => negb (Nat.eqb m source)) l in
  sets (browser (run (onended srcs source) w)) !! srcs = Some rest
  /\ status (react (run (onended srcs source) w))
     = (if Nat.eqb (length rest) 0 then idle else status (react w)).
Proof.
  intros Hl rest. subst rest.
  pose proof (lookup_lt_Some _ _ _ Hl) as Hlt.
  unfold run, onended, bind, set_delete, modify, gets, set_contents, setStatus, ret.
  cbn. rewrite Hl. cbn. rewrite list_lookup_insert_eq by exact Hlt. cbn.
  destruct (Nat.eqb (length _) 0); cbn; rewrite Hl;
    by rewrite list_lookup_insert_eq by exact Hlt.
Qed.

Lemma all_ended_snoc srcs ended source w :
  all_ended srcs (ended ++ [source]) w = run (onended srcs source) (all_ended srcs ended w).
Proof. unfold all_ended. by rewrite fold_left_app. Qed.

Lemma all_ended_contents srcs ended : forall l w,
  sets (browser w) !! srcs = Some l ->
  exists l', sets (browser (all_ended srcs ended w)) !! srcs = Some l'
             /\ forall m, m ∈ l' -> m ∈ l /\ m ∉ ended.
Proof.
  induction ended as [|source ended IH] using rev_ind; intros l w Hl.
  - exists l. split; [exact Hl|]. intros m Hm. split; [exact Hm|]. apply not_elem_of_nil.
  - destruct (IH l w Hl) as (l1 & H1 & Hsub).
    rewrite all_ended_snoc.
    destruct (onended_spec srcs source l1 _ H1) as [H2 _].
    eexists. split; [exact H2|].
    intros m Hm. apply list_elem_of_In, filter_In in Hm as [Hm Hne].
    apply list_elem_of_In, Hsub in Hm as [Hin Hnot].
    split; [exact Hin|]. rewrite elem_of_app, list_elem_of_singleton.
    intros [? | ->]; [by apply Hnot|]. by rewrite Nat.eqb_refl in Hne.
Qed.

(** Once every source of a set has reported ['ended'], in whatever order
    and however often, the set is empty and the status is [idle]; with
    the set already empty, as after [stopAllAudio], a single ['ended']
    event does it. *)
Theorem playback_ends_idle srcs ended l w :
  sets (browser w) !! srcs = Some l ->
  (forall m, m ∈ l -> m ∈ ended) ->
  ended <> [] ->
  sets (browser (all_ended srcs ended w)) !! srcs = Some []
  /\ status (react (all_ended srcs ended w)) = idle.
Proof.
  intros Hl Hsub Hne.
  destruct (all_ended_contents srcs ended l w Hl) as (l' & Hl' & Hin).
  assert (El : l' = []).
  { destruct l' as [|m l']; [reflexivity|].
    destruct (Hin m) as [H1 H2]; [left|]. by destruct (H2 (Hsub m H1)). }
  subst l'. split; [exact Hl'|].
  destruct ended as [|source ended _] using rev_ind; [done|].
  rewrite all_ended_snoc in Hl' |- *.
  destruct (all_ended_contents srcs ended l w Hl) as (l1 & H1 & _).
  destruct (onended_spec srcs source l1 _ H1) as [H2 H3].
  pose proof (eq_trans (eq_sym Hl') H2) as E. injection E as E.
  rewrite H3, <- E. reflexivity.
Qed.

(** *** Start and stop *)

Lemma torn_down_react w :
  react (torn_down w)
  = upd_status idle (upd_isConnecting false (upd_isConnected false (react w))).
Proof.
  unfold torn_down.
  match goal with
  | |- react (with_react _ (with_react _ (with_react _ (silenced ?x)))) = _ =>
      change (upd_status idle (upd_isConnecting false (upd_isConnected false
                (react (silenced x))))
              = upd_status idle (upd_isConnecting false (upd_isConnected false (react w))))
  end.
  rewrite silenced_react. by destruct (sessionRef (refs w)).
Qed.

Lemma run_stop w : run stopVoiceSession w = torn_down w.
Proof. unfold run. by rewrite (stopVoiceSession_eq stop_raises). Qed.

Lemma start_passes_guard x :
  isConnecting (react x) = false -> isConnected (react x) = false ->
  exists w',
    startVoiceSession x
    = (Normal (Some {| cl_currentInput := currentInput (react x);
                       cl_currentOutput := currentOutput (react x) |}), w')
    /\ isConnecting (react w') = true
    /\ transcriptions (react w') = transcriptions (react x).
Proof.
  intros H1 H2.
  unfold startVoiceSession, bind, gets, ret, modify, setIsConnecting, new_object, new_Set, call.
  rewrite H1, H2. cbn. eexists. by repeat split.
Qed.

(** After [stopVoiceSession], from any state, the start button works:
    [startVoiceSession] passes its guard.  The transcript and the pending
    buffers survive the stop, and the new session's callbacks capture the
    buffers as the stop left them. *)
Theorem stop_reenables_start w :
  exists w',
    startVoiceSession (run stopVoiceSession w)
    = (Normal (Some {| cl_currentInput := currentInput (react w);
                       cl_currentOutput := currentOutput (react w) |}), w')
    /\ isConnecting (react w') = true
    /\ transcriptions (react w') = transcriptions (react w).
Proof.
  unfold run. rewrite (stopVoiceSession_eq stop_raises). cbn [snd].
  pose proof (torn_down_react w) as Hr.
  destruct (start_passes_guard (torn_down w)) as (w' & E & Hc & Ht);
    [by rewrite Hr..|].
  rewrite Hr in E, Ht. exists w'. by repeat split.
Qed.

(** Stop pressed while the connection is still being negotiated closes
    nothing, because [sessionRef] is still empty; when the session then
    opens and the promise resolves, the component is connected and
    listening and holds the session all the same. *)
Theorem stop_while_connecting_does_not_cancel w s stream :
  sessionRef (refs w) = None ->
  let stopped := run stopVoiceSession w in
  let w' := run (startVoiceSession_session (Some s)) (run (onopen stream) stopped) in
  calls (browser stopped) = calls (browser w) ++ List.map source_stop (active w)
  /\ isConnected (react w') = true
  /\ status (react w') = listening
  /\ sessionRef (refs w') = Some s
  /\ calls (browser w') = calls (browser stopped) ++ [capture_wired stream].
Proof.
  intros Hs stopped w'. subst stopped w'. rewrite run_stop.
  split; [|by repeat split].
  assert (Hb : browser (torn_down w) = browser (silenced w))
    by (unfold torn_down; by rewrite Hs).
  rewrite Hb. apply silenced_calls.
Qed.

Lemma flags_after_message cl env msg w :
  isConnecting (react (run (onmessage cl env msg) w)) = isConnecting (react w)
  /\ isConnected (react (run (onmessage cl env msg) w)) = isConnected (react w).
Proof.
  rewrite onmessage_react. unfold turn_update, text_update.
  destruct (turnComplete msg), (outputTranscription msg), (inputTranscription msg); by cbn.
Qed.

(** No sequence of events makes the component connecting and connected
    at once. *)
Theorem never_connecting_and_connected events : forall w,
  isConnecting (react w) && isConnected (react w) = false ->
  isConnecting (react (handle_all events w)) && isConnected (react (handle_all events w))
  = false.
Proof.
  induction events as [|e events IH]; intros w Hw; [exact Hw|].
  apply IH. destruct e; cbn [Voice.handle].
  - unfold run, startVoiceSession, bind, gets.
    destruct (isConnecting (react w)) eqn:E1, (isConnected (react w)) eqn:E2; cbn;
      rewrite ?E1, ?E2; done.
  - destruct granted; cbn; [exact Hw|reflexivity].
  - destruct r; cbn; [exact Hw|reflexivity].
  - reflexivity.
  - destruct (flags_after_message cl env msg w) as [-> ->]. exact Hw.
  - unfold run, onended, bind, gets, set_delete, modify, setStatus, ret. cbn.
    by destruct (Nat.eqb _ 0).
  - by rewrite run_stop, torn_down_react.
Qed.

(** The transcript is append-only under every event: what was logged
    stays logged, in place, across stops and new sessions. *)
Theorem log_is_append_only events : forall w,
  transcriptions (react w) `prefix_of` transcriptions (react (handle_all events w)).
Proof.
  induction events as [|e events IH]; intros w; [reflexivity|].
  etrans; [|apply IH]. destruct e; cbn [Voice.handle].
  - unfold run, startVoiceSession, bind, gets.
    by destruct (isConnecting (react w) || isConnected (react w)).
  - by destruct granted.
  - by destruct r.
  - reflexivity.
  - rewrite onmessage_react. unfold turn_update, text_update.
    destruct (turnComplete msg), (outputTranscription msg), (inputTranscription msg); cbn;
      try reflexivity; by apply prefix_app_r.
  - unfold run, onended, bind, gets, set_delete, modify, setStatus, ret. cbn.
    by destruct (Nat.eqb _ 0).
  - by rewrite run_stop, torn_down_react.
Qed.

(** A start that passes the guard begins with a new, empty source set
    and leaves the sets of earlier sessions as they are; it asks for the
    microphone and does not move the cursor. *)
Theorem start_begins_with_no_sources w :
  isConnecting (react w) || isConnected (react w) = false ->
  let w' := run startVoiceSession w in
  active w' = []
  /\ sets (browser w') = sets (browser w) ++ [[]]
  /\ isConnecting (react w') = true
  /\ calls (browser w') = calls (browser w) ++ [getUserMedia]
  /\ cursor w' = cursor w.
Proof.
  intros Hg w'. subst w'.
  unfold run, startVoiceSession, bind, gets, ret, modify, setIsConnecting, new_object,
    new_Set, call. rewrite Hg. cbn.
  split; [|by repeat split].
  unfold active, set_contents. cbn.
  by rewrite lookup_app_r, Nat.sub_diag by lia.
Qed.

(** When the microphone is refused after a start that passed the guard,
    the React state is exactly what it was before the start: nothing is
    acquired, no connection is attempted, and start can be pressed again. *)
Theorem refused_microphone_restores_state w :
  isConnecting (react w) || isConnected (react w) = false ->
  let w' := run (startVoiceSession_stream false) (run startVoiceSession w) in
  react w' = react w
  /\ streams (browser w') = streams (browser w)
  /\ calls (browser w') = calls (browser w) ++ [getUserMedia].
Proof.
  intros Hg w'. subst w'. apply orb_false_iff in Hg as [H1 H2].
  unfold run, startVoiceSession, bind, gets, ret, modify, setIsConnecting, new_object,
    new_Set, call. rewrite H1, H2. cbn.
  split; [|by split].
  destruct w as [[a b c d e f] rf br]. cbn in *. by subst.
Qed.

End VoiceExtras.

(** * Concrete runs for the further properties *)

Section ExtraRuns.
Import Persistence Sync.

Lemma remove_item_out_of_range_witness :
  length (get k_routine Demo.one_lecture) <= 5
  /\ handleRemoveItem k_routine 5 Demo.one_lecture = Demo.one_lecture.
Proof.
  assert (H : length (get k_routine Demo.one_lecture) <= 5) by (cbn; lia).
  split; [exact H|]. exact (remove_item_out_of_range k_routine 5 Demo.one_lecture H).
Defined.

Lemma displayed_notice_is_the_one_removed_witness :
  0 < length (notices Demo2.three_notices)
  /\ displayed_notices (remove_displayed_notice 0 Demo2.three_notices)
     = take 0 (displayed_notices Demo2.three_notices)
       ++ drop 1 (displayed_notices Demo2.three_notices).
Proof.
  assert (H : 0 < length (notices Demo2.three_notices)) by (cbn; lia).
  split; [exact H|]. exact (displayed_notice_is_the_one_removed 0 Demo2.three_notices H).
Defined.

(** The newest notice is shown first; its button removes it. *)
Example newest_notice_removed :
  displayed_notices Demo2.three_notices
    = [Demo2.notice "third"; Demo2.notice "second"; Demo2.notice "first"]
  /\ displayed_notices (remove_displayed_notice 0 Demo2.three_notices)
    = [Demo2.notice "second"; Demo2.notice "first"].
Proof. split; reflexivity. Qed.

Lemma add_item_appends_one_record_witness :
  exists d',
    handleAddItem Demo.no_trim "11/2/2026" (Some "faculty") Demo.faculty_form
                  Demo.one_lecture = Some d'
    /\ (forall c, get c Demo.one_lecture `prefix_of` get c d')
    /\ records d' = records Demo.one_lecture + (if known_form (Some "faculty") then 1 else 0).
Proof.
  eexists. split; [reflexivity|].
  exact (add_item_appends_one_record Demo.no_trim "11/2/2026" (Some "faculty")
           Demo.faculty_form Demo.one_lecture _ eq_refl).
Defined.

Lemma new_poll_has_one_option_per_piece_witness :
  Demo2.poll_form "options" = Some "Yes, No,,Maybe"
  /\ exists opts,
       handleAddItem Demo.no_trim "11/2/2026" (Some "polls") Demo2.poll_form Demo.one_lecture
       = Some (set k_polls (polls Demo.one_lecture ++
                 [JObj [("question", form_get Demo2.poll_form "question");
                        ("options", JArr opts)]]) Demo.one_lecture)
       /\ length opts = S (count_char (Ascii.ascii_of_nat 44) "Yes, No,,Maybe")
       /\ Forall (fun o => exists text, o = fresh_option text) opts.
Proof.
  split; [reflexivity|].
  exact (new_poll_has_one_option_per_piece Demo.no_trim "11/2/2026" Demo2.poll_form
           Demo.one_lecture "Yes, No,,Maybe" eq_refl).
Defined.

Lemma lecture_text_not_empty : Demo.stringify Demo.one_lecture <> "".
Proof. intros H. vm_compute in H. discriminate H. Defined.

Lemma offline_never_answers payload : Demo.offline get_request <> Response true payload.
Proof. intros H. discriminate H. Defined.

Lemma saved_document_survives_offline_witness :
  Demo2.parse (Demo.stringify Demo.one_lecture) = Normal Demo.one_lecture
  /\ Demo.stringify Demo.one_lecture <> ""
  /\ (forall payload, Demo.offline get_request <> Response true payload)
  /\ (load Demo.stringify Demo2.parse Demo2.record_of Demo.offline
        (save Demo.stringify Demo.offline Demo.one_lecture (store mounted)).2).1
     = Normal (Some Demo.one_lecture).
Proof.
  split; [reflexivity|]. split; [exact lecture_text_not_empty|].
  split; [exact offline_never_answers|].
  exact (saved_document_survives_offline Demo.stringify Demo2.parse Demo2.record_of
           Demo.offline Demo.one_lecture (store mounted) eq_refl lecture_text_not_empty
           offline_never_answers).
Defined.

Lemma loaded_record_is_cached_witness :
  Demo2.serving_lecture get_request = Response true (Demo.stringify Demo.one_lecture)
  /\ Demo2.record_of (Demo.stringify Demo.one_lecture) = Normal Demo.one_lecture
  /\ (load Demo.stringify Demo2.parse Demo2.record_of Demo2.serving_lecture
        (store mounted)).1 = Normal (Some Demo.one_lecture)
  /\ (load Demo.stringify Demo2.parse Demo2.record_of Demo.offline
        (load Demo.stringify Demo2.parse Demo2.record_of Demo2.serving_lecture
           (store mounted)).2).1 = Normal (Some Demo.one_lecture).
Proof.
  split; [reflexivity|]. split; [reflexivity|].
  exact (loaded_record_is_cached Demo.stringify Demo2.parse Demo2.record_of
           Demo2.serving_lecture Demo.offline (store mounted)
           (Demo.stringify Demo.one_lecture) Demo.one_lecture eq_refl eq_refl eq_refl
           lecture_text_not_empty offline_never_answers).
Defined.

Lemma pending_timer_current : timer_current Demo.stringify Demo.pending.
Proof.
  unfold timer_current. change (timer Demo.pending)
    with (Some (Demo.one_lecture, Demo.stringify Demo.one_lecture)).
  repeat split. intros (H & _). discriminate H.
Defined.

Lemma saved_documents_are_never_empty_witness :
  timer_current Demo.stringify Demo.pending
  /\ Forall (fun d => ~ three_empty d) (saves Demo.pending)
  /\ Forall (fun d => ~ three_empty d)
            (saves (Sync.run_events Demo.stringify Demo.online Demo.no_trim "11/2/2026"
                      Demo.later Demo.pending)).
Proof.
  split; [exact pending_timer_current|]. split; [constructor|].
  exact (saved_documents_are_never_empty Demo.stringify Demo.no_trim "11/2/2026"
           Demo.online Demo.later Demo.pending pending_timer_current (List.Forall_nil _)).
Defined.

Lemma failed_save_is_not_retried_witness :
  timer Demo.pending = Some (Demo.one_lecture, Demo.stringify Demo.one_lecture)
  /\ (let st' := timer_fired Demo.stringify Demo.rejecting Demo.pending in
      syncStatus st' = error
      /\ lastSavedData st' = lastSavedData Demo.pending
      /\ getItem LOCAL_STORAGE_KEY (store st') = Some (Demo.stringify Demo.one_lecture)
      /\ saves st' = saves Demo.pending ++ [Demo.one_lecture]
      /\ timer_fired Demo.stringify Demo.rejecting st' = st').
Proof.
  split; [reflexivity|].
  refine (failed_save_is_not_retried Demo.stringify Demo.rejecting Demo.pending
            Demo.one_lecture (Demo.stringify Demo.one_lecture) eq_refl _).
  intros payload H. discriminate H.
Defined.

Lemma saved_data_is_not_saved_again_witness :
  timer Demo.pending = Some (Demo.one_lecture, Demo.stringify Demo.one_lecture)
  /\ Demo.online (put_request Demo.stringify Demo.one_lecture) = Response true "{}"
  /\ (let st' := timer_fired Demo.stringify Demo.online Demo.pending in
      syncStatus st' = synced
      /\ lastSavedData st' = Demo.stringify Demo.one_lecture
      /\ timer (setData Demo.stringify Demo.one_lecture st') = None).
Proof.
  split; [reflexivity|]. split; [reflexivity|].
  exact (saved_data_is_not_saved_again Demo.stringify Demo.online Demo.pending
           Demo.one_lecture "{}" Demo.one_lecture eq_refl eq_refl eq_refl).
Defined.

Lemma loaded_document_is_saved_back_witness :
  Demo2.serving_lecture get_request = Response true (Demo.stringify Demo.one_lecture)
  /\ Demo2.record_of (Demo.stringify Demo.one_lecture) = Normal Demo.one_lecture
  /\ skip_save Demo.stringify Demo.one_lecture (lastSavedData mounted) = false
  /\ (let st1 := (loadInitialData Demo.stringify Demo2.parse Demo2.record_of
                    Demo2.serving_lecture mounted).2 in
      (loadInitialData Demo.stringify Demo2.parse Demo2.record_of
         Demo2.serving_lecture mounted).1 = Normal tt
      /\ data st1 = Demo.one_lecture
      /\ syncStatus st1 = synced
      /\ getItem LOCAL_STORAGE_KEY (store st1) = Some (Demo.stringify Demo.one_lecture)
      /\ saves (timer_fired Demo.stringify Demo2.serving_lecture st1)
         = saves mounted ++ [Demo.one_lecture]).
Proof.
  split; [reflexivity|]. split; [reflexivity|]. split; [reflexivity|].
  exact (loaded_document_is_saved_back Demo.stringify Demo2.parse Demo2.record_of
           Demo2.serving_lecture mounted (Demo.stringify Demo.one_lecture)
           Demo.one_lecture eq_refl eq_refl eq_refl).
Defined.

Lemma oops_not_empty : "{oops" <> "".
Proof. intros H. discriminate H. Defined.

Lemma corrupt_cache_leaves_syncing_witness :
  getItem LOCAL_STORAGE_KEY (store Demo2.mounted_on_corrupt) = Some "{oops"
  /\ Demo2.parse "{oops" = Throw "SyntaxError"
  /\ (loadInitialData Demo.stringify Demo2.parse Demo2.record_of Demo.offline
        Demo2.mounted_on_corrupt).1 = Throw "SyntaxError"
  /\ syncStatus (loadInitialData Demo.stringify Demo2.parse Demo2.record_of Demo.offline
                   Demo2.mounted_on_corrupt).2 = syncing
  /\ data (loadInitialData Demo.stringify Demo2.parse Demo2.record_of Demo.offline
             Demo2.mounted_on_corrupt).2 = data Demo2.mounted_on_corrupt
  /\ timer (loadInitialData Demo.stringify Demo2.parse Demo2.record_of Demo.offline
              Demo2.mounted_on_corrupt).2 = timer Demo2.mounted_on_corrupt.
Proof.
  split; [reflexivity|]. split; [reflexivity|].
  exact (corrupt_cache_leaves_syncing Demo.stringify Demo2.parse Demo2.record_of
           Demo.offline Demo2.mounted_on_corrupt "{oops" "SyntaxError"
           offline_never_answers eq_refl oops_not_empty eq_refl).
Defined.

End ExtraRuns.

Section ExtraVoiceRuns.
Import Voice.

Lemma fragments_accumulate_witness :
  Forall (fun ev : MsgEnv * LiveServerMessage => turnComplete ev.2 = false)
         [(Demo.at_time 1700000000000 0, Demo.heard "hello");
          (Demo.at_time 1700000000400 0, Demo.spoken "hi")]
  /\ currentOutput (react (run_events Demo.stop_fine Demo.decodeBase64 Demo.decodeAudioData
                             Demo.first_closure
                             [(Demo.at_time 1700000000000 0, Demo.heard "hello");
                              (Demo.at_time 1700000000400 0, Demo.spoken "hi")]
                             Demo.opened))
     = currentOutput (react Demo.opened)
       +:+ glue (List.map (fun ev : MsgEnv * LiveServerMessage => out_fragment ev.2)
                   [(Demo.at_time 1700000000000 0, Demo.heard "hello");
                    (Demo.at_time 1700000000400 0, Demo.spoken "hi")])
  /\ currentInput (react (run_events Demo.stop_fine Demo.decodeBase64 Demo.decodeAudioData
                            Demo.first_closure
                            [(Demo.at_time 1700000000000 0, Demo.heard "hello");
                             (Demo.at_time 1700000000400 0, Demo.spoken "hi")]
                            Demo.opened))
     = currentInput (react Demo.opened)
       +:+ glue (List.map (fun ev : MsgEnv * LiveServerMessage => in_fragment ev.2)
                   [(Demo.at_time 1700000000000 0, Demo.heard "hello");
                    (Demo.at_time 1700000000400 0, Demo.spoken "hi")]).
Proof.
  assert (HF : Forall (fun ev : MsgEnv * LiveServerMessage => turnComplete ev.2 = false)
                 [(Demo.at_time 1700000000000 0, Demo.heard "hello");
                  (Demo.at_time 1700000000400 0, Demo.spoken "hi")])
    by (repeat constructor).
  split; [exact HF|].
  exact (fragments_accumulate Demo.stop_fine Demo.decodeBase64 Demo.decodeAudioData
           Demo.first_closure _ Demo.opened HF).
Defined.

Lemma undecodable_chunk_aborts_handler_witness :
  interrupted Faulty.bad_chunk = true
  /\ active Demo.playing = [6; 7]
  /\ decoded Faulty.decodeBase64 Demo.decodeAudioData Faulty.bad_chunk Demo.playing
     = Some (Throw "InvalidCharacterError")
  /\ (onmessage Demo.stop_fine Faulty.decodeBase64 Demo.decodeAudioData Demo.first_closure
        Demo.interrupted_at Faulty.bad_chunk Demo.playing).1 = Throw "InvalidCharacterError"
  /\ calls (browser (run (onmessage Demo.stop_fine Faulty.decodeBase64 Demo.decodeAudioData
                            Demo.first_closure Demo.interrupted_at Faulty.bad_chunk)
                         Demo.playing))
     = calls (browser Demo.playing)
  /\ sets (browser (run (onmessage Demo.stop_fine Faulty.decodeBase64 Demo.decodeAudioData
                           Demo.first_closure Demo.interrupted_at Faulty.bad_chunk)
                        Demo.playing))
     = sets (browser Demo.playing)
  /\ cursor (run (onmessage Demo.stop_fine Faulty.decodeBase64 Demo.decodeAudioData
                    Demo.first_closure Demo.interrupted_at Faulty.bad_chunk) Demo.playing)
     = Math_max (cursor Demo.playing) (currentTime Demo.interrupted_at).
Proof.
  split; [reflexivity|]. split; [reflexivity|]. split; [reflexivity|].
  exact (undecodable_chunk_aborts_handler Demo.stop_fine Faulty.decodeBase64
           Demo.decodeAudioData Demo.first_closure Demo.interrupted_at Faulty.bad_chunk
           Demo.playing "InvalidCharacterError" eq_refl).
Defined.

Lemma clock_not_negative : (0 <= 8 # 10)%Q.
Proof. intros H. discriminate H. Defined.

Lemma late_chunk_decodes :
  chunk_of Demo.decodeBase64 Demo.decodeAudioData {| input := 0; output := 1 |}
           (Demo.at_time 1700000000800 (8 # 10), Demo.chunk "A")
           {| buf_length := 12000; buf_sampleRate := 24000 |}.
Proof. split; [reflexivity|]. eexists _, _. repeat split; reflexivity. Defined.

Lemma chunk_after_interruption_starts_at_clock_witness :
  interrupted Demo.barge_in = true
  /\ completes (onmessage Demo.stop_fine Demo.decodeBase64 Demo.decodeAudioData
                  Demo.first_closure Demo.interrupted_at (calm Demo.barge_in)) Demo.playing
  /\ chunk_of Demo.decodeBase64 Demo.decodeAudioData {| input := 0; output := 1 |}
              (Demo.at_time 1700000000800 (8 # 10), Demo.chunk "A")
              {| buf_length := 12000; buf_sampleRate := 24000 |}
  /\ (0 <= 8 # 10)%Q
  /\ (let w1 := run (onmessage Demo.stop_fine Demo.decodeBase64 Demo.decodeAudioData
                       Demo.first_closure Demo.interrupted_at Demo.barge_in) Demo.playing in
      let w2 := run (onmessage Demo.stop_fine Demo.decodeBase64 Demo.decodeAudioData
                       Demo.first_closure
                       (Demo.at_time 1700000000800 (8 # 10), Demo.chunk "A").1
                       (Demo.at_time 1700000000800 (8 # 10), Demo.chunk "A").2) w1 in
      start_times w2
      = start_times w1
        ++ [currentTime (Demo.at_time 1700000000800 (8 # 10), Demo.chunk "A").1]
      /\ cursor w2
         = (currentTime (Demo.at_time 1700000000800 (8 # 10), Demo.chunk "A").1
            + duration {| buf_length := 12000; buf_sampleRate := 24000 |})%Q).
Proof.
  split; [reflexivity|]. split; [exists tt; vm_compute; reflexivity|].
  split; [exact late_chunk_decodes|]. split; [exact clock_not_negative|].
  exact (chunk_after_interruption_starts_at_clock Demo.stop_fine Demo.decodeBase64
           Demo.decodeAudioData Demo.first_closure {| input := 0; output := 1 |}
           {| inputNode := 3; outputNode := 4; analyzer := 2; sources := 0 |}
           Demo.interrupted_at Demo.barge_in
           (Demo.at_time 1700000000800 (8 # 10), Demo.chunk "A")
           {| buf_length := 12000; buf_sampleRate := 24000 |} Demo.playing
           eq_refl (ex_intro _ tt eq_refl) eq_refl eq_refl late_chunk_decodes
           clock_not_negative).
Defined.

Lemma both_reported (m : SourceNode) : m ∈ [6; 7] -> m ∈ [7; 6].
Proof.
  intros H. apply elem_of_cons in H as [-> | H]; [right; left|].
  apply elem_of_cons in H as [-> | H]; [left|]. by apply elem_of_nil in H.
Defined.

Lemma nonempty_report : [7; 6] <> @nil SourceNode.
Proof. intros H. discriminate H. Defined.

Lemma playback_ends_idle_witness :
  sets (browser Demo.playing) !! 0 = Some [6; 7]
  /\ status (react Demo.playing) = speaking
  /\ sets (browser (all_ended 0 [7; 6] Demo.playing)) !! 0 = Some []
  /\ status (react (all_ended 0 [7; 6] Demo.playing)) = idle.
Proof.
  split; [reflexivity|]. split; [reflexivity|].
  exact (playback_ends_idle 0 [7; 6] [6; 7] Demo.playing eq_refl both_reported
           nonempty_report).
Defined.

Lemma stop_while_connecting_does_not_cancel_witness :
  sessionRef (refs Faulty.connecting) = None
  /\ isConnecting (react Faulty.connecting) = true
  /\ (let stopped := run (stopVoiceSession Demo.stop_fine) Faulty.connecting in
      let w' := run (startVoiceSession_session (Some 7)) (run (onopen 5) stopped) in
      calls (browser stopped)
      = calls (browser Faulty.connecting) ++ List.map source_stop (active Faulty.connecting)
      /\ isConnected (react w') = true
      /\ status (react w') = listening
      /\ sessionRef (refs w') = Some 7
      /\ calls (browser w') = calls (browser stopped) ++ [capture_wired 5]).
Proof.
  split; [reflexivity|]. split; [reflexivity|].
  exact (stop_while_connecting_does_not_cancel Demo.stop_fine Faulty.connecting 7 5 eq_refl).
Defined.

Lemma never_connecting_and_connected_witness :
  isConnecting (react initial) && isConnected (react initial) = false
  /\ isConnecting (react (handle_all Demo.stop_fine Demo.decodeBase64 Demo.decodeAudioData
                            Faulty.short_session initial))
     && isConnected (react (handle_all Demo.stop_fine Demo.decodeBase64 Demo.decodeAudioData
                              Faulty.short_session initial))
     = false.
Proof.
  split; [reflexivity|].
  exact (never_connecting_and_connected Demo.stop_fine Demo.decodeBase64
           Demo.decodeAudioData Faulty.short_session initial eq_refl).
Defined.

Lemma start_begins_with_no_sources_witness :
  isConnecting (react (run (stopVoiceSession Demo.stop_fine) Demo.playing))
  || isConnected (react (run (stopVoiceSession Demo.stop_fine) Demo.playing)) = false
  /\ (let w' := run startVoiceSession (run (stopVoiceSession Demo.stop_fine) Demo.playing) in
      active w' = []
      /\ sets (browser w')
         = sets (browser (run (stopVoiceSession Demo.stop_fine) Demo.playing)) ++ [[]]
      /\ isConnecting (react w') = true
      /\ calls (browser w')
         = calls (browser (run (stopVoiceSession Demo.stop_fine) Demo.playing))
           ++ [getUserMedia]
      /\ cursor w' = cursor (run (stopVoiceSession Demo.stop_fine) Demo.playing)).
Proof.
  split; [reflexivity|].
  exact (start_begins_with_no_sources (run (stopVoiceSession Demo.stop_fine) Demo.playing)
           eq_refl).
Defined.

Lemma refused_microphone_restores_state_witness :
  isConnecting (react initial) || isConnected (react initial) = false
  /\ (let w' := run (startVoiceSession_stream false) (run startVoiceSession initial) in
      react w' = react initial
      /\ streams (browser w') = streams (browser initial)
      /\ calls (browser w') = calls (browser initial) ++ [getUserMedia]).
Proof.
  split; [reflexivity|]. exact (refused_microphone_restores_state initial eq_refl).
Defined.

End ExtraVoiceRuns.

Section OverlappingDeliveries.
Import Voice.

Variable stop_raises : World -> SourceNode -> bool.
Variable decodeBase64 : string -> Completion (list Byte.byte).
Variable decodeAudioData :
  list Byte.byte -> AudioContext -> positive -> positive -> Completion AudioBuffer.

(** Deliveries may overlap at the [await] of line 130.  Absent an
    interruption marker neither half of the handler moves the cursor
    back, whatever the decoding gives, so the cursor is non-decreasing
    under every interleaving of arrivals and resumptions. *)
Theorem overlapping_deliveries_keep_cursor cl env msg w :
  interrupted msg = false ->
  (cursor w <= cursor (run (onmessage_arrival decodeBase64 decodeAudioData cl env msg) w))%Q
  /\ forall d, (cursor w <= cursor (run (onmessage_resumed stop_raises msg d) w))%Q.
Proof.
  intros Hi. split.
  - apply arrival_cursor_le.
  - intros d. by apply resumed_cursor_le.
Qed.

End OverlappingDeliveries.

Section OverlappingRuns.
Import Voice.

Lemma overlapping_deliveries_keep_cursor_witness :
  interrupted (Demo.chunk "AA") = false
  /\ (cursor Demo.playing
      <= cursor (run (onmessage_arrival Demo.decodeBase64 Demo.decodeAudioData
                        Demo.first_closure (Demo.at_time 1700000002000 2) (Demo.chunk "AA"))
                     Demo.playing))%Q
  /\ forall d, (cursor Demo.playing
                <= cursor (run (onmessage_resumed Demo.stop_fine (Demo.chunk "AA") d)
                               Demo.playing))%Q.
Proof.
  split; [reflexivity|].
  exact (overlapping_deliveries_keep_cursor Demo.stop_fine Demo.decodeBase64
           Demo.decodeAudioData Demo.first_closure (Demo.at_time 1700000002000 2)
           (Demo.chunk "AA") Demo.playing eq_refl).
Defined.

End OverlappingRuns.
